(** * fix_project.py: line-oriented patching of an Xcode project manifest

    A shallow embedding of [src/fix_project.py].  The script reads
    [iMessageWrapped.xcodeproj/project.pbxproj] as a list of lines, leaves it
    alone when the identifier of the first product dependency already occurs
    in it, and otherwise walks the lines twice: once to append build-file,
    frameworks-phase and target-dependency lines after marker lines, once to
    put a new [XCSwiftPackageProductDependency] section in front of the
    project section.  The result is written back to the same path.

    Text is modelled as [string]: the content of a file is the text Python
    reads from it in text mode, where every line end is a single line feed.
    The file system is a finite map from paths to contents, and a run is a
    function from the world before it to an exit status and the world after
    it, or to an uncaught exception. *)

From Stdlib Require Import ZArith Ascii.
From stdpp Require Import gmap strings list.


(** ** Text primitives *)

Definition TAB : string := String "009"%char EmptyString.
Definition LF : string := String "010"%char EmptyString.
Definition DQ : string := String "034"%char EmptyString.

(** [is_prefix p s]: [s] starts with [p] (Python's [s.startswith(p)]). *)
Fixpoint is_prefix (p s : string) : bool :=
  match p, s with
  | EmptyString, _ => true
  | String _ _, EmptyString => false
  | String a p', String b s' => Ascii.eqb a b && is_prefix p' s'
  end.

(** [contains needle hay]: Python's [needle in hay] on [str]. *)
Fixpoint contains (needle hay : string) : bool :=
  is_prefix needle hay ||
  match hay with
  | EmptyString => false
  | String _ rest => contains needle rest
  end.

(** Number of positions of [hay] at which [needle] starts. *)
Fixpoint occurrences (needle hay : string) : nat :=
  (if is_prefix needle hay then 1 else 0) +
  match hay with
  | EmptyString => 0
  | String _ rest => occurrences needle rest
  end.

(** [join ls]: the elements of [ls] one after the other, Python's [join]
    on the empty string and what [writelines] puts on disk. *)
Fixpoint join (ls : list string) : string :=
  match ls with
  | [] => EmptyString
  | l :: rest => l +:+ join rest
  end.

(** [readlines text]: the lines of [text], each with its line feed; a last
    line without one is kept as it is. *)
Fixpoint readlines (text : string) : list string :=
  match text with
  | EmptyString => []
  | String c rest =>
      if Ascii.eqb c "010"%char then LF :: readlines rest
      else match readlines rest with
           | [] => [String c EmptyString]
           | l :: ls => String c l :: ls
           end
  end.

(** Shape of a line: its last and first character, and the characters
    it holds. *)
Fixpoint ends_with (x : ascii) (s : string) : bool :=
  match s with
  | EmptyString => false
  | String c rest =>
      match rest with
      | EmptyString => Ascii.eqb c x
      | String _ _ => ends_with x rest
      end
  end.

Definition starts_with (x : ascii) (s : string) : bool :=
  match s with
  | EmptyString => false
  | String c _ => Ascii.eqb c x
  end.

Fixpoint mem_char (x : ascii) (s : string) : bool :=
  match s with
  | EmptyString => false
  | String c rest => Ascii.eqb c x || mem_char x rest
  end.

(** Every line but the last ends with a line feed. *)
Fixpoint terminated (lines : list string) : Prop :=
  match lines with
  | [] => True
  | l :: rest => (rest = [] ∨ ends_with "010" l = true) ∧ terminated rest
  end.

(** ** Constants of the script *)

Definition path : string := "iMessageWrapped.xcodeproj/project.pbxproj".

Definition frameworks_phase_id : string := "A1000020282A0001".
Definition native_target_id : string := "A1000040282A0001".

Definition mlx_pkg_id : string := "96B796092F00EDE300F7DF93".
Definition mlx_lm_pkg_id : string := "96B7960A2F00EFF500F7DF93".

Definition mlx_dep_id : string := "96B7960B2F00F00100F7DF93".
Definition mlx_llm_dep_id : string := "96B7960C2F00F00200F7DF93".
Definition mlx_common_dep_id : string := "96B7960F2F00F00500F7DF93".

Definition mlx_build_id : string := "96B7960D2F00F00300F7DF93".
Definition mlx_llm_build_id : string := "96B7960E2F00F00400F7DF93".
Definition mlx_common_build_id : string := "96B796102F00F00600F7DF93".

(** Marker sub-strings tested with [in]. *)
Definition build_file_marker : string := "/* Begin PBXBuildFile section */".
Definition frameworks_marker : string :=
  frameworks_phase_id +:+ " /* Frameworks */ = {".
Definition files_marker : string := "files = (".
Definition native_target_marker : string :=
  native_target_id +:+ " /* iMessageWrapped */ = {".
Definition product_type_marker : string := "productType = ".
Definition project_marker : string := "/* Begin PBXProject section */".

(** The three lines appended after the build-file section marker. *)
Definition build_file_lines : list string :=
  [ TAB +:+ TAB +:+ mlx_build_id +:+
      " /* MLX in Frameworks */ = {isa = PBXBuildFile; productRef = " +:+
      mlx_dep_id +:+ " /* MLX */; };" +:+ LF;
    TAB +:+ TAB +:+ mlx_llm_build_id +:+
      " /* MLXLLM in Frameworks */ = {isa = PBXBuildFile; productRef = " +:+
      mlx_llm_dep_id +:+ " /* MLXLLM */; };" +:+ LF;
    TAB +:+ TAB +:+ mlx_common_build_id +:+
      " /* MLXLMCommon in Frameworks */ = {isa = PBXBuildFile; productRef = " +:+
      mlx_common_dep_id +:+ " /* MLXLMCommon */; };" +:+ LF ].

(** The three lines appended after the frameworks phase's [files = (]. *)
Definition frameworks_lines : list string :=
  [ TAB +:+ TAB +:+ TAB +:+ TAB +:+ mlx_build_id +:+
      " /* MLX in Frameworks */," +:+ LF;
    TAB +:+ TAB +:+ TAB +:+ TAB +:+ mlx_llm_build_id +:+
      " /* MLXLLM in Frameworks */," +:+ LF;
    TAB +:+ TAB +:+ TAB +:+ TAB +:+ mlx_common_build_id +:+
      " /* MLXLMCommon in Frameworks */," +:+ LF ].

(** The five-line sub-block appended after the target's product type. *)
Definition dependency_block : list string :=
  [ TAB +:+ TAB +:+ TAB +:+ "packageProductDependencies = (" +:+ LF;
    TAB +:+ TAB +:+ TAB +:+ TAB +:+ mlx_dep_id +:+ " /* MLX */," +:+ LF;
    TAB +:+ TAB +:+ TAB +:+ TAB +:+ mlx_llm_dep_id +:+ " /* MLXLLM */," +:+ LF;
    TAB +:+ TAB +:+ TAB +:+ TAB +:+ mlx_common_dep_id +:+
      " /* MLXLMCommon */," +:+ LF;
    TAB +:+ TAB +:+ TAB +:+ ");" +:+ LF ].

(** One five-line sub-record of the new section. *)
Definition dependency_record (dep_id pkg_id repo product : string)
  : list string :=
  [ TAB +:+ TAB +:+ dep_id +:+ " /* " +:+ product +:+ " */ = {" +:+ LF;
    TAB +:+ TAB +:+ TAB +:+ "isa = XCSwiftPackageProductDependency;" +:+ LF;
    TAB +:+ TAB +:+ TAB +:+ "package = " +:+ pkg_id +:+
      " /* XCRemoteSwiftPackageReference " +:+ DQ +:+ repo +:+ DQ +:+
      " */;" +:+ LF;
    TAB +:+ TAB +:+ TAB +:+ "productName = " +:+ product +:+ ";" +:+ LF;
    TAB +:+ TAB +:+ "};" +:+ LF ].

(** The new section: begin line, three sub-records, and one last element
    holding the end line and the blank separator. *)
Definition dependency_section : list string :=
  [ "/* Begin XCSwiftPackageProductDependency section */" +:+ LF ] ++
  dependency_record mlx_dep_id mlx_pkg_id "mlx-swift" "MLX" ++
  dependency_record mlx_llm_dep_id mlx_lm_pkg_id "mlx-swift-lm" "MLXLLM" ++
  dependency_record mlx_common_dep_id mlx_lm_pkg_id "mlx-swift-lm"
    "MLXLMCommon" ++
  [ "/* End XCSwiftPackageProductDependency section */" +:+ LF +:+ LF ].

(** ** First pass: the structural inserter *)

Record inserter_state := InserterState {
  new_lines : list string;
  in_native_target : bool;
  in_frameworks_phase : bool
}.

Definition inserter_init : inserter_state :=
  InserterState [] false false.

(** One iteration of [for line in lines]. *)
Definition inserter_step (st : inserter_state) (line : string)
  : inserter_state :=
  let out := new_lines st ++ [line] in
  let out :=
    if contains build_file_marker line then out ++ build_file_lines else out in
  let fw :=
    if contains frameworks_marker line then true
    else in_frameworks_phase st in
  let '(out, fw) :=
    if fw && contains files_marker line
    then (out ++ frameworks_lines, false) else (out, fw) in
  let nt :=
    if contains native_target_marker line then true
    else in_native_target st in
  let '(out, nt) :=
    if nt && contains product_type_marker line
    then (out ++ dependency_block, false) else (out, nt) in
  InserterState out nt fw.

Definition inserter (lines : list string) : inserter_state :=
  fold_left inserter_step lines inserter_init.

(** ** Second pass: the section appender *)

Record appender_state := AppenderState {
  final_lines : list string;
  inserted_deps : bool
}.

Definition appender_step (st : appender_state) (line : string)
  : appender_state :=
  let '(out, ins) :=
    if contains project_marker line && negb (inserted_deps st)
    then (final_lines st ++ dependency_section, true)
    else (final_lines st, inserted_deps st) in
  AppenderState (out ++ [line]) ins.

Definition appender (lines : list string) : appender_state :=
  fold_left appender_step lines (AppenderState [] false).

(** Both passes, from the lines read to the lines written. *)
Definition patch_lines (lines : list string) : list string :=
  final_lines (appender (new_lines (inserter lines))).

(** ** The whole script *)

Inductive event :=
| EvWrite (p content : string)
| EvPrint (text : string).

Record world := World {
  files : gmap string string;
  log : list event
}.

Inductive outcome :=
| Raised
| Exited (code : Z) (w : world).

Definition print (text : string) (w : world) : world :=
  World (files w) (log w ++ [EvPrint (text +:+ LF)]).

Definition write_file (p content : string) (w : world) : world :=
  World (<[p := content]> (files w)) (log w ++ [EvWrite p content]).

(** The script from top to bottom.  Opening a missing file raises; the
    guard leaves through [sys.exit(0)]; the normal end has status 0 too. *)
Definition main (w : world) : outcome :=
  match files w !! path with
  | None => Raised
  | Some text =>
      let lines := readlines text in
      let content := join lines in
      if contains mlx_dep_id content
      then Exited 0 (print "Project already patched." w)
      else
        let final := patch_lines lines in
        Exited 0 (print "Project patched successfully."
                    (write_file path (join final) w))
  end.

(** ** The control flow of the two passes, line by line

    Which injections fire at which line depends only on the flags, so the
    firing decisions are computed apart from the output they produce. *)

Section Flag.
(** A flag of the first pass: a line containing [arm] raises it, and the
    next line (that line included) containing [hit] fires and lowers it. *)
Variables arm hit : string → bool.

Definition armed_on (flag : bool) (line : string) : bool :=
  if arm line then true else flag.
Definition fires_on (flag : bool) (line : string) : bool :=
  armed_on flag line && hit line.
Definition flag_next (flag : bool) (line : string) : bool :=
  if fires_on flag line then false else armed_on flag line.

Fixpoint fire_trace (flag : bool) (lines : list string) : list bool :=
  match lines with
  | [] => []
  | line :: rest =>
      fires_on flag line :: fire_trace (flag_next flag line) rest
  end.
End Flag.

(** The guard of the second pass: fires on a marker line unless it fired
    before. *)
Fixpoint once_trace (mark : string → bool) (done_ : bool)
    (lines : list string) : list bool :=
  match lines with
  | [] => []
  | line :: rest =>
      let f := mark line && negb done_ in
      f :: once_trace mark (if f then true else done_) rest
  end.

Record firing := Firing {
  d_section : bool;      (* the new section goes in front of the line *)
  d_build : bool;        (* the build-file lines follow the line *)
  d_frameworks : bool;   (* the frameworks-phase lines follow the line *)
  d_target : bool        (* the dependency sub-block follows the line *)
}.

(** What the first pass emits for one input line. *)
Definition render_after (line : string) (d : firing) : list string :=
  [line] ++
  (if d_build d then build_file_lines else []) ++
  (if d_frameworks d then frameworks_lines else []) ++
  (if d_target d then dependency_block else []).

(** What the two passes together emit for one input line. *)
Definition render (line : string) (d : firing) : list string :=
  (if d_section d then dependency_section else []) ++ render_after line d.

(** The decisions taken along [lines], from given values of
    [inserted_deps], [in_native_target] and [in_frameworks_phase]. *)
Fixpoint decisions (ins nt fw : bool) (lines : list string)
  : list firing :=
  match lines with
  | [] => []
  | line :: rest =>
      let sec := contains project_marker line && negb ins in
      Firing sec
        (contains build_file_marker line)
        (fires_on (contains frameworks_marker) (contains files_marker) fw line)
        (fires_on (contains native_target_marker)
           (contains product_type_marker) nt line)
      :: decisions (if sec then true else ins)
           (flag_next (contains native_target_marker)
              (contains product_type_marker) nt line)
           (flag_next (contains frameworks_marker)
              (contains files_marker) fw line)
           rest
  end.

Fixpoint count_where {A} (p : A → bool) (l : list A) : nat :=
  match l with
  | [] => 0
  | x :: rest => (if p x then 1 else 0) + count_where p rest
  end.

(** ** Positions, for stating where the injections go *)

Fixpoint find_index {A} (p : A → bool) (l : list A) : option nat :=
  match l with
  | [] => None
  | x :: rest => if p x then Some 0 else S <$> find_index p rest
  end.

(** The first line containing [hit] at or after the first line containing
    [arm]. *)
Definition hit_after (arm hit : string → bool) (lines : list string)
  : option nat :=
  i ← find_index arm lines;
  k ← find_index hit (drop i lines);
  Some (i + k).

Inductive injection :=
| BuildFiles
| FrameworksRefs
| TargetDeps
| NewSection.

#[global] Instance injection_eq_dec : EqDecision injection.
Proof. solve_decision. Defined.

Definition position_of (k : injection) (lines : list string) : option nat :=
  match k with
  | BuildFiles => find_index (contains build_file_marker) lines
  | FrameworksRefs =>
      hit_after (contains frameworks_marker) (contains files_marker) lines
  | TargetDeps =>
      hit_after (contains native_target_marker)
        (contains product_type_marker) lines
  | NewSection => find_index (contains project_marker) lines
  end.

Definition injected (k : injection) : list string :=
  match k with
  | BuildFiles => build_file_lines
  | FrameworksRefs => frameworks_lines
  | TargetDeps => dependency_block
  | NewSection => dependency_section
  end.

(** The field of a decision that belongs to an injection. *)
Definition field (k : injection) : firing → bool :=
  match k with
  | BuildFiles => d_build
  | FrameworksRefs => d_frameworks
  | TargetDeps => d_target
  | NewSection => d_section
  end.


(** The trace that is true at position [o] only. *)
Definition indicator (o : option nat) (lines : list string) : list bool :=
  imap (λ i _, bool_decide (o = Some i)) lines.

Definition decision_at (pos : injection → option nat) (i : nat) : firing :=
  Firing (bool_decide (pos NewSection = Some i))
         (bool_decide (pos BuildFiles = Some i))
         (bool_decide (pos FrameworksRefs = Some i))
         (bool_decide (pos TargetDeps = Some i)).


(** Each begin marker occurs at most once. *)
Definition markers_at_most_once (lines : list string) : bool :=
  (count_where (contains build_file_marker) lines <=? 1) &&
  (count_where (contains frameworks_marker) lines <=? 1) &&
  (count_where (contains native_target_marker) lines <=? 1) &&
  (count_where (contains project_marker) lines <=? 1).

(** All four marker lines occur once each: every begin marker on exactly
    one line, the frameworks marker followed by a [files = (] line and the
    native target marker followed by a [productType = ] line. *)
Definition all_markers_once (lines : list string) : bool :=
  (count_where (contains build_file_marker) lines =? 1) &&
  (count_where (contains frameworks_marker) lines =? 1) &&
  bool_decide (is_Some (position_of FrameworksRefs lines)) &&
  (count_where (contains native_target_marker) lines =? 1) &&
  bool_decide (is_Some (position_of TargetDeps lines)) &&
  (count_where (contains project_marker) lines =? 1).


(** ** Running the script *)

(** The document on disk after a run, if the run ended normally. *)
Definition document_after (o : outcome) : option string :=
  match o with
  | Raised => None
  | Exited _ w => files w !! path
  end.

(** A second run, started where the first one ended. *)
Definition run_again (o : outcome) : outcome :=
  match o with
  | Raised => Raised
  | Exited _ w => main w
  end.

(** ** Sample documents *)

Definition sample : string :=
  "// !$*UTF8*$!" +:+ LF +:+
  "/* Begin PBXBuildFile section */" +:+ LF +:+
  "/* End PBXBuildFile section */" +:+ LF +:+
  TAB +:+ TAB +:+ "A1000020282A0001 /* Frameworks */ = {" +:+ LF +:+
  TAB +:+ TAB +:+ TAB +:+ "files = (" +:+ LF +:+
  TAB +:+ TAB +:+ TAB +:+ ");" +:+ LF +:+
  TAB +:+ TAB +:+ "};" +:+ LF +:+
  TAB +:+ TAB +:+ "A1000040282A0001 /* iMessageWrapped */ = {" +:+ LF +:+
  TAB +:+ TAB +:+ TAB +:+ "productType = x;" +:+ LF +:+
  TAB +:+ TAB +:+ "};" +:+ LF +:+
  "/* Begin PBXProject section */" +:+ LF +:+
  "/* End PBXProject section */" +:+ LF.

(** A world whose only file is the project manifest. *)
Definition disk (text : string) : world := World {[ path := text ]} [].

(** How often the sentinel occurs in the document a run leaves behind. *)
Definition sentinel_count (o : outcome) : option nat :=
  occurrences mlx_dep_id <$> document_after o.

(** The four positions as a table. *)
Definition positions (ib jf jt ip : nat) : injection → option nat :=
  λ k, match k with
       | BuildFiles => Some ib
       | FrameworksRefs => Some jf
       | TargetDeps => Some jt
       | NewSection => Some ip
       end.

(** A document that holds the sentinel already. *)
Definition already_patched : string :=
  "/* Begin PBXProject section */" +:+ LF +:+
  TAB +:+ TAB +:+ TAB +:+ TAB +:+ mlx_dep_id +:+ " /* MLX */," +:+ LF.


(** A document with a frameworks phase and nothing else to patch. *)
Definition frameworks_only : string :=
  TAB +:+ TAB +:+ "A1000020282A0001 /* Frameworks */ = {" +:+ LF +:+
  TAB +:+ TAB +:+ TAB +:+ "files = (" +:+ LF +:+
  TAB +:+ TAB +:+ TAB +:+ ");" +:+ LF +:+
  TAB +:+ TAB +:+ "};" +:+ LF.

(** A document in which the build-file marker and the frameworks phase
    occur twice. *)
Definition twice_marked : list string :=
  [ "/* Begin PBXBuildFile section */" +:+ LF;
    "/* Begin PBXBuildFile section */" +:+ LF;
    TAB +:+ TAB +:+ "A1000020282A0001 /* Frameworks */ = {" +:+ LF;
    TAB +:+ TAB +:+ TAB +:+ "files = (" +:+ LF;
    TAB +:+ TAB +:+ "A1000020282A0001 /* Frameworks */ = {" +:+ LF;
    TAB +:+ TAB +:+ TAB +:+ "files = (" +:+ LF ].

(** A native target without a product type, followed by another block
    that has one. *)
Definition stray_product_type : list string :=
  [ TAB +:+ TAB +:+ "A1000040282A0001 /* iMessageWrapped */ = {" +:+ LF;
    TAB +:+ TAB +:+ TAB +:+ "name = iMessageWrapped;" +:+ LF;
    TAB +:+ TAB +:+ "};" +:+ LF;
    TAB +:+ TAB +:+ "B2000040282A0002 /* Helper */ = {" +:+ LF;
    TAB +:+ TAB +:+ TAB +:+ "productType = tool;" +:+ LF;
    TAB +:+ TAB +:+ "};" +:+ LF ].

(** ** Blocks of the manifest, as the specification speaks of them *)

(** Opening minus closing braces of a line. *)
Fixpoint brace_depth (s : string) : Z :=
  match s with
  | EmptyString => 0
  | String c rest =>
      ((if Ascii.eqb c "{" then 1 else if Ascii.eqb c "}" then -1 else 0)
       + brace_depth rest)%Z
  end.

(** The block entered at depth [depth] is not closed by any line of [ls]. *)
Fixpoint stays_open (depth : Z) (ls : list string) : bool :=
  match ls with
  | [] => true
  | l :: rest =>
      let d := (depth + brace_depth l)%Z in
      (0 <? d)%Z && stays_open d rest
  end.

(** Line [i] lies within the native target block: some line [b] at or
    before it holds the native target marker, and the block that line
    opens is not closed before line [i]. *)
Definition in_target_block (lines : list string) (i : nat) : bool :=
  existsb
    (λ b, match lines !! b with
          | Some lb =>
              contains native_target_marker lb &&
              stays_open 0 (take (i - b) (drop b lines))
          | None => false
          end)
    (seq 0 (S i)).

(** ** Lines without markers, and bracket balance *)

(** The line holds none of the four begin markers. *)
Definition begins_nothing (line : string) : bool :=
  negb (contains build_file_marker line) &&
  negb (contains frameworks_marker line) &&
  negb (contains native_target_marker line) &&
  negb (contains project_marker line).

(** The line holds none of the six markers the script tests for. *)
Definition unmarked (line : string) : bool :=
  begins_nothing line &&
  negb (contains files_marker line) &&
  negb (contains product_type_marker line).

(** Occurrences of the character [o] minus those of [c]. *)
Fixpoint balance (o c : ascii) (s : string) : Z :=
  match s with
  | EmptyString => 0
  | String x rest =>
      ((if Ascii.eqb x o then 1 else 0) - (if Ascii.eqb x c then 1 else 0)
       + balance o c rest)%Z
  end.

(** ** The patched document as lines of text

    The blocks a patched manifest is to hold, written out as the lines of
    text they make in the file, apart from the constants above. *)

Definition build_file_text : list string :=
  [ TAB +:+ TAB +:+ "96B7960D2F00F00300F7DF93 /* MLX in Frameworks */ = " +:+
      "{isa = PBXBuildFile; productRef = 96B7960B2F00F00100F7DF93 " +:+
      "/* MLX */; };" +:+ LF;
    TAB +:+ TAB +:+ "96B7960E2F00F00400F7DF93 /* MLXLLM in Frameworks */ = " +:+
      "{isa = PBXBuildFile; productRef = 96B7960C2F00F00200F7DF93 " +:+
      "/* MLXLLM */; };" +:+ LF;
    TAB +:+ TAB +:+
      "96B796102F00F00600F7DF93 /* MLXLMCommon in Frameworks */ = " +:+
      "{isa = PBXBuildFile; productRef = 96B7960F2F00F00500F7DF93 " +:+
      "/* MLXLMCommon */; };" +:+ LF ].

Definition reference_text : list string :=
  [ TAB +:+ TAB +:+ TAB +:+ TAB +:+
      "96B7960D2F00F00300F7DF93 /* MLX in Frameworks */," +:+ LF;
    TAB +:+ TAB +:+ TAB +:+ TAB +:+
      "96B7960E2F00F00400F7DF93 /* MLXLLM in Frameworks */," +:+ LF;
    TAB +:+ TAB +:+ TAB +:+ TAB +:+
      "96B796102F00F00600F7DF93 /* MLXLMCommon in Frameworks */," +:+ LF ].

Definition dependency_text : list string :=
  [ TAB +:+ TAB +:+ TAB +:+ "packageProductDependencies = (" +:+ LF;
    TAB +:+ TAB +:+ TAB +:+ TAB +:+
      "96B7960B2F00F00100F7DF93 /* MLX */," +:+ LF;
    TAB +:+ TAB +:+ TAB +:+ TAB +:+
      "96B7960C2F00F00200F7DF93 /* MLXLLM */," +:+ LF;
    TAB +:+ TAB +:+ TAB +:+ TAB +:+
      "96B7960F2F00F00500F7DF93 /* MLXLMCommon */," +:+ LF;
    TAB +:+ TAB +:+ TAB +:+ ");" +:+ LF ].

(** The new section: eighteen lines, the last one blank. *)
Definition section_text : list string :=
  [ "/* Begin XCSwiftPackageProductDependency section */" +:+ LF;
    TAB +:+ TAB +:+ "96B7960B2F00F00100F7DF93 /* MLX */ = {" +:+ LF;
    TAB +:+ TAB +:+ TAB +:+ "isa = XCSwiftPackageProductDependency;" +:+ LF;
    TAB +:+ TAB +:+ TAB +:+ "package = 96B796092F00EDE300F7DF93 " +:+
      "/* XCRemoteSwiftPackageReference " +:+ DQ +:+ "mlx-swift" +:+ DQ +:+
      " */;" +:+ LF;
    TAB +:+ TAB +:+ TAB +:+ "productName = MLX;" +:+ LF;
    TAB +:+ TAB +:+ "};" +:+ LF;
    TAB +:+ TAB +:+ "96B7960C2F00F00200F7DF93 /* MLXLLM */ = {" +:+ LF;
    TAB +:+ TAB +:+ TAB +:+ "isa = XCSwiftPackageProductDependency;" +:+ LF;
    TAB +:+ TAB +:+ TAB +:+ "package = 96B7960A2F00EFF500F7DF93 " +:+
      "/* XCRemoteSwiftPackageReference " +:+ DQ +:+ "mlx-swift-lm" +:+ DQ +:+
      " */;" +:+ LF;
    TAB +:+ TAB +:+ TAB +:+ "productName = MLXLLM;" +:+ LF;
    TAB +:+ TAB +:+ "};" +:+ LF;
    TAB +:+ TAB +:+ "96B7960F2F00F00500F7DF93 /* MLXLMCommon */ = {" +:+ LF;
    TAB +:+ TAB +:+ TAB +:+ "isa = XCSwiftPackageProductDependency;" +:+ LF;
    TAB +:+ TAB +:+ TAB +:+ "package = 96B7960A2F00EFF500F7DF93 " +:+
      "/* XCRemoteSwiftPackageReference " +:+ DQ +:+ "mlx-swift-lm" +:+ DQ +:+
      " */;" +:+ LF;
    TAB +:+ TAB +:+ TAB +:+ "productName = MLXLMCommon;" +:+ LF;
    TAB +:+ TAB +:+ "};" +:+ LF;
    "/* End XCSwiftPackageProductDependency section */" +:+ LF;
    LF ].

(** [lines] with [sec] put immediately before the line at the position of
    the new section and [bf], [fw], [nt] immediately after the lines at
    the other three positions; every other line stays as it is. *)
Definition insert_blocks (sec bf fw nt : list string)
    (pos : injection → option nat) (lines : list string) : list string :=
  concat
    (imap (λ i line,
             (if bool_decide (pos NewSection = Some i) then sec else []) ++
             [line] ++
             (if bool_decide (pos BuildFiles = Some i) then bf else []) ++
             (if bool_decide (pos FrameworksRefs = Some i) then fw else []) ++
             (if bool_decide (pos TargetDeps = Some i) then nt else []))
       lines).

(** The lines of text of the patched file, for the given positions. *)
Definition expected_text (pos : injection → option nat)
    (lines : list string) : list string :=
  insert_blocks section_text build_file_text reference_text dependency_text
    pos lines.

(** What one input line becomes in the text of the patched file. *)
Definition render_text (line : string) (d : firing) : list string :=
  (if d_section d then section_text else []) ++
  [line] ++
  (if d_build d then build_file_text else []) ++
  (if d_frameworks d then reference_text else []) ++
  (if d_target d then dependency_text else []).

(** The line at position [o], if there is one, ends with a line feed. *)
Definition ended_at (o : option nat) (lines : list string) : bool :=
  match o with
  | None => true
  | Some j =>
      match lines !! j with
      | Some l => ends_with "010" l
      | None => true
      end
  end.

(** The lines after which a block is appended end with a line feed. *)
Definition receivers_terminated (lines : list string) : bool :=
  ended_at (position_of BuildFiles lines) lines &&
  ended_at (position_of FrameworksRefs lines) lines &&
  ended_at (position_of TargetDeps lines) lines.

(** The lines of [pre] after its last line that holds [hit]. *)
Fixpoint since_last (hit : string → bool) (pre : list string)
  : list string :=
  match pre with
  | [] => []
  | _ :: rest => if existsb hit pre then since_last hit rest else pre
  end.

(** Read after [pre], the line holds [hit], and it or a line of [pre]
    after the last [hit] line of [pre] holds [arm]. *)
Definition due (arm hit : string → bool) (pre : list string)
    (line : string) : bool :=
  hit line && (arm line || existsb arm (since_last hit pre)).

(** All four markers once each, the product-type line last and without a
    line feed. *)
Definition sample_unterminated : string :=
  "// !$*UTF8*$!" +:+ LF +:+
  "/* Begin PBXBuildFile section */" +:+ LF +:+
  "/* End PBXBuildFile section */" +:+ LF +:+
  TAB +:+ TAB +:+ "A1000020282A0001 /* Frameworks */ = {" +:+ LF +:+
  TAB +:+ TAB +:+ TAB +:+ "files = (" +:+ LF +:+
  TAB +:+ TAB +:+ TAB +:+ ");" +:+ LF +:+
  TAB +:+ TAB +:+ "};" +:+ LF +:+
  "/* Begin PBXProject section */" +:+ LF +:+
  "/* End PBXProject section */" +:+ LF +:+
  TAB +:+ TAB +:+ "A1000040282A0001 /* iMessageWrapped */ = {" +:+ LF +:+
  TAB +:+ TAB +:+ TAB +:+ "productType = x;".




(** * Properties *)

(** ** Strings *)

Lemma app_empty_l (b : string) : EmptyString +:+ b = b.
Proof. reflexivity. Qed.

Lemma app_cons (c : ascii) (a b : string) :
  String c a +:+ b = String c (a +:+ b).
Proof. reflexivity. Qed.

Lemma app_empty_r (a : string) : a +:+ EmptyString = a.
Proof. induction a as [|c a IH]; [done|]. by rewrite app_cons, IH. Qed.

Lemma app_assoc_str (a b c : string) : (a +:+ b) +:+ c = a +:+ (b +:+ c).
Proof.
  induction a as [|x a IH]; [done|]. by rewrite !app_cons, IH.
Qed.

Lemma join_app (k l : list string) : join (k ++ l) = join k +:+ join l.
Proof.
  induction k as [|x k IH]; [done|].
  cbn [app join]. by rewrite IH, app_assoc_str.
Qed.

Lemma is_prefix_app (p t : string) : is_prefix p (p +:+ t) = true.
Proof.
  induction p as [|c p IH]; [done|].
  rewrite app_cons. cbn [is_prefix]. by rewrite Ascii.eqb_refl, IH.
Qed.

Lemma is_prefix_inv (p s : string) :
  is_prefix p s = true → ∃ t, s = p +:+ t.
Proof.
  revert s. induction p as [|c p IH]; intros s H.
  - by exists s.
  - destruct s as [|d s]; [done|]. cbn [is_prefix] in H.
    apply andb_true_iff in H as [Hc Hp]. apply Ascii.eqb_eq in Hc as ->.
    destruct (IH _ Hp) as [t ->]. by exists t.
Qed.

Lemma is_prefix_extend (p s t : string) :
  is_prefix p s = true → is_prefix p (s +:+ t) = true.
Proof.
  intros [u ->]%is_prefix_inv. rewrite app_assoc_str. apply is_prefix_app.
Qed.

Lemma contains_app_l (n a b : string) :
  contains n a = true → contains n (a +:+ b) = true.
Proof.
  induction a as [|c a IH]; cbn [contains]; intros H.
  - rewrite orb_false_r in H. destruct n; [|by simpl in H]. by destruct b.
  - apply orb_true_iff in H as [H|H].
    + rewrite app_cons. cbn [contains].
      rewrite <- app_cons, (is_prefix_extend _ _ _ H). done.
    + rewrite app_cons. cbn [contains]. rewrite (IH H). apply orb_true_r.
Qed.

Lemma contains_app_r (n a b : string) :
  contains n b = true → contains n (a +:+ b) = true.
Proof.
  intros H. induction a as [|c a IH]; [done|].
  rewrite app_cons. cbn [contains]. rewrite IH. apply orb_true_r.
Qed.

Lemma contains_join (n l : string) (ls : list string) :
  l ∈ ls → contains n l = true → contains n (join ls) = true.
Proof.
  intros Hin H. induction Hin as [l ls|l l' ls _ IH]; cbn [join].
  - by apply contains_app_l.
  - apply contains_app_r. by apply IH.
Qed.

Lemma occurrences_contains (n s : string) :
  occurrences n s = 0 ↔ contains n s = false.
Proof.
  induction s as [|c s IH]; cbn [occurrences contains].
  - destruct (is_prefix n EmptyString); cbn; split; done.
  - destruct (is_prefix n (String c s)); cbn; [split; done|]. done.
Qed.

(** ** Reading lines *)

Lemma join_readlines (text : string) : join (readlines text) = text.
Proof.
  induction text as [|c text IH]; [done|]. cbn [readlines].
  destruct (Ascii.eqb_spec c "010") as [->|_].
  - cbn [join]. by rewrite IH.
  - destruct (readlines text) as [|l ls]; cbn [join] in *.
    + by rewrite <- IH.
    + by rewrite app_cons, IH.
Qed.

Lemma ends_with_cons (x c : ascii) (s : string) :
  ends_with x s = true → ends_with x (String c s) = true.
Proof. by destruct s. Qed.

Lemma readlines_terminated (text : string) : terminated (readlines text).
Proof.
  induction text as [|c text IH]; [done|]. cbn [readlines].
  destruct (Ascii.eqb c "010").
  - split; [by right|done].
  - destruct (readlines text) as [|l ls]; [by split; [left|]|].
    destruct IH as [[->|Hl] Hls]; (split; [|done]); [by left|right].
    by apply ends_with_cons.
Qed.

Lemma ends_with_inv (x : ascii) (s : string) :
  ends_with x s = true → ∃ s0, s = s0 +:+ String x EmptyString.
Proof.
  induction s as [|c s IH]; [done|]. cbn [ends_with].
  destruct s as [|d s].
  - intros ->%Ascii.eqb_eq. by exists EmptyString.
  - intros [s0 Hs0]%IH. exists (String c s0). by rewrite app_cons, <- Hs0.
Qed.

Lemma starts_with_inv (x : ascii) (s : string) :
  starts_with x s = true → ∃ s0, s = String x s0.
Proof.
  destruct s as [|c s]; [done|]. intros ->%Ascii.eqb_eq. by exists s.
Qed.

(** ** The two passes as decisions rendered line by line *)

Lemma inserter_step_spec (st : inserter_state) (line : string) :
  inserter_step st line =
  InserterState
    (new_lines st ++
     render_after line
       (Firing false (contains build_file_marker line)
          (fires_on (contains frameworks_marker) (contains files_marker)
             (in_frameworks_phase st) line)
          (fires_on (contains native_target_marker)
             (contains product_type_marker) (in_native_target st) line)))
    (flag_next (contains native_target_marker)
       (contains product_type_marker) (in_native_target st) line)
    (flag_next (contains frameworks_marker) (contains files_marker)
       (in_frameworks_phase st) line).
Proof.
  destruct st as [out nt fw].
  unfold inserter_step, render_after, flag_next, fires_on, armed_on.
  cbn [new_lines in_native_target in_frameworks_phase
       d_build d_frameworks d_target].
  destruct (contains build_file_marker line),
    (contains frameworks_marker line), (contains files_marker line),
    (contains native_target_marker line),
    (contains product_type_marker line), nt, fw;
    cbn [andb]; rewrite <- ?(assoc_L (++)); reflexivity.
Qed.

Lemma inserter_fold (ins : bool) (lines : list string) (st : inserter_state) :
  new_lines (fold_left inserter_step lines st) =
  new_lines st ++
  concat (zip_with render_after lines
            (decisions ins (in_native_target st) (in_frameworks_phase st)
               lines)).
Proof.
  revert ins st. induction lines as [|line rest IH]; intros ins st.
  - cbn. by rewrite app_nil_r.
  - cbn [fold_left decisions zip_with concat].
    rewrite (IH (if contains project_marker line && negb ins
                 then true else ins)), inserter_step_spec.
    cbn [new_lines in_native_target in_frameworks_phase].
    by rewrite <- (assoc_L (++)).
Qed.

Lemma appender_skip (ls acc : list string) (ins : bool) :
  Forall (λ l, contains project_marker l = false) ls →
  fold_left appender_step ls (AppenderState acc ins) =
  AppenderState (acc ++ ls) ins.
Proof.
  intros H. revert acc. induction H as [|l ls Hl _ IH]; intros acc.
  - cbn. by rewrite app_nil_r.
  - cbn [fold_left]. unfold appender_step at 2.
    cbn [final_lines inserted_deps]. rewrite Hl. cbn [andb].
    by rewrite IH, <- (assoc_L (++)).
Qed.

Lemma injected_lines_unmarked (b f t : bool) :
  Forall (λ l, contains project_marker l = false)
    ((if b then build_file_lines else []) ++
     (if f then frameworks_lines else []) ++
     (if t then dependency_block else [])).
Proof.
  destruct b, f, t; repeat (constructor; [by vm_compute|]); constructor.
Qed.

Lemma appender_render (acc : list string) (ins s b f t : bool)
    (line : string) :
  fold_left appender_step (render_after line (Firing s b f t))
    (AppenderState acc ins) =
  AppenderState
    (acc ++ render line (Firing (contains project_marker line && negb ins)
                           b f t))
    (if contains project_marker line && negb ins then true else ins).
Proof.
  unfold render, render_after. cbn [d_section d_build d_frameworks d_target].
  cbn [app fold_left]. unfold appender_step at 2.
  cbn [final_lines inserted_deps].
  destruct (contains project_marker line && negb ins);
    rewrite appender_skip by apply injected_lines_unmarked;
    f_equal; rewrite <- ?(assoc_L (++)); reflexivity.
Qed.

Lemma appender_fold (lines acc : list string) (ins nt fw : bool) :
  final_lines
    (fold_left appender_step
       (concat (zip_with render_after lines (decisions ins nt fw lines)))
       (AppenderState acc ins)) =
  acc ++ concat (zip_with render lines (decisions ins nt fw lines)).
Proof.
  revert acc ins nt fw. induction lines as [|line rest IH];
    intros acc ins nt fw.
  - cbn. by rewrite app_nil_r.
  - cbn [decisions zip_with concat].
    rewrite fold_left_app, appender_render, IH.
    by rewrite <- (assoc_L (++)).
Qed.

(** The lines written are the input lines, each rendered with the decisions
    the flags take at it. *)
Lemma patch_lines_decisions (lines : list string) :
  patch_lines lines =
  concat (zip_with render lines (decisions false false false lines)).
Proof.
  unfold patch_lines, inserter, appender.
  rewrite (inserter_fold false). cbn [new_lines inserter_init app
    in_native_target in_frameworks_phase].
  by rewrite appender_fold.
Qed.

Lemma main_guard (w : world) (text : string) :
  files w !! path = Some text →
  contains mlx_dep_id text = true →
  main w = Exited 0 (print "Project already patched." w).
Proof.
  intros Hf Hc. unfold main. by rewrite Hf, join_readlines, Hc.
Qed.

Lemma main_patch (w : world) (text : string) :
  files w !! path = Some text →
  contains mlx_dep_id text = false →
  main w =
  Exited 0 (print "Project patched successfully."
              (write_file path (join (patch_lines (readlines text))) w)).
Proof.
  intros Hf Hc. unfold main. by rewrite Hf, join_readlines, Hc.
Qed.

(** ** Traces and positions *)

Lemma indicator_None (lines : list string) :
  indicator None lines = (λ _, false) <$> lines.
Proof.
  unfold indicator. rewrite <- imap_const. by apply imap_ext.
Qed.

Lemma indicator_cons_0 (x : string) (rest : list string) :
  indicator (Some 0) (x :: rest) = true :: indicator None rest.
Proof. unfold indicator. rewrite imap_cons. f_equal. Qed.

Lemma indicator_cons_S (o : option nat) (x : string) (rest : list string) :
  indicator (S <$> o) (x :: rest) = false :: indicator o rest.
Proof.
  unfold indicator. rewrite imap_cons. f_equal.
  - destruct o; by cbn.
  - apply imap_ext. intros i y _. cbn.
    apply bool_decide_ext. destruct o; cbn; naive_solver.
Qed.

Lemma count_where_false {A} (l : list A) :
  count_where id ((λ _, false) <$> l) = 0.
Proof. induction l; [done|]. by cbn. Qed.

Lemma indicator_count (o : option nat) (lines : list string) :
  (∀ j, o = Some j → j < length lines) →
  count_where id (indicator o lines) =
  match o with Some _ => 1 | None => 0 end.
Proof.
  revert o. induction lines as [|x rest IH]; intros o Ho.
  - destruct o as [j|]; [|done]. specialize (Ho j eq_refl). cbn in Ho. lia.
  - destruct o as [[|j]|].
    + rewrite indicator_cons_0, indicator_None. cbn [count_where id].
      by rewrite count_where_false.
    + rewrite (indicator_cons_S (Some j)). cbn [count_where id].
      rewrite IH; [done|]. intros j' [= <-].
      specialize (Ho (S j) eq_refl). cbn in Ho. lia.
    + rewrite indicator_None. apply count_where_false.
Qed.

Lemma find_index_lt {A} (p : A → bool) (l : list A) (j : nat) :
  find_index p l = Some j → j < length l.
Proof.
  revert j. induction l as [|x rest IH]; intros j; [done|].
  cbn [find_index length]. destruct (p x).
  - intros [= <-]. lia.
  - destruct (find_index p rest) as [j'|]; [|done].
    intros [= <-]. specialize (IH j' eq_refl). lia.
Qed.

Lemma find_index_Some {A} (p : A → bool) (l : list A) (j : nat) :
  find_index p l = Some j →
  ∃ x, l !! j = Some x ∧ p x = true ∧
       ∀ k y, k < j → l !! k = Some y → p y = false.
Proof.
  revert j. induction l as [|x rest IH]; intros j; [done|].
  cbn [find_index]. destruct (p x) eqn:Hx.
  - intros [= <-]. exists x. split_and!; [done..|]. intros; lia.
  - destruct (find_index p rest) as [j'|]; [|done].
    intros [= <-]. destruct (IH j' eq_refl) as (y & Hy & Hpy & Hbefore).
    exists y. split_and!; [done..|].
    intros [|k] z Hk Hz; [by simplify_eq/=|].
    apply (Hbefore k); [lia|done].
Qed.

Lemma find_index_None {A} (p : A → bool) (l : list A) :
  find_index p l = None ↔ count_where p l = 0.
Proof.
  induction l as [|x rest IH]; [done|]. cbn [find_index count_where].
  destruct (p x); [done|]. rewrite <- IH.
  destruct (find_index p rest); done.
Qed.

Lemma find_index_is_Some {A} (p : A → bool) (l : list A) :
  0 < count_where p l → is_Some (find_index p l).
Proof.
  intros H. destruct (find_index p l) eqn:E; [done|].
  apply find_index_None in E. lia.
Qed.

Lemma hit_after_lt (arm hit : string → bool) (lines : list string) (j : nat) :
  hit_after arm hit lines = Some j → j < length lines.
Proof.
  unfold hit_after. intros H.
  destruct (find_index arm lines) as [i|] eqn:Hi; [|done].
  cbn in H. destruct (find_index hit (drop i lines)) as [k|] eqn:Hk; [|done].
  cbn in H. injection H as <-.
  apply find_index_lt in Hi, Hk. rewrite length_drop in Hk. lia.
Qed.

(** What a position found by [hit_after] means. *)
Lemma hit_after_Some (arm hit : string → bool) (lines : list string)
    (j : nat) :
  hit_after arm hit lines = Some j →
  ∃ i la lh,
    i ≤ j ∧ lines !! i = Some la ∧ arm la = true ∧
    lines !! j = Some lh ∧ hit lh = true ∧
    (∀ k lk, k < i → lines !! k = Some lk → arm lk = false) ∧
    (∀ k lk, i ≤ k < j → lines !! k = Some lk → hit lk = false).
Proof.
  unfold hit_after. intros H.
  destruct (find_index arm lines) as [i|] eqn:Hi; [|done].
  cbn in H. destruct (find_index hit (drop i lines)) as [k|] eqn:Hk; [|done].
  cbn in H. injection H as <-.
  apply find_index_Some in Hi as (la & Hla & Harm & Hbefore).
  apply find_index_Some in Hk as (lh & Hlh & Hhit & Hbetween).
  rewrite lookup_drop in Hlh.
  exists i, la, lh. split_and!; [lia|done..|].
  intros k' lk [Hik Hkj] Hlk. apply (Hbetween (k' - i)); [lia|].
  rewrite lookup_drop. by replace (i + (k' - i)) with k' by lia.
Qed.

Lemma hit_after_armed (arm hit : string → bool) (x : string)
    (rest : list string) :
  arm x = true →
  hit_after arm hit (x :: rest) = find_index hit (x :: rest).
Proof.
  intros Hx. unfold hit_after. cbn [find_index]. rewrite Hx. cbn.
  by destruct (if hit x then _ else _).
Qed.

Lemma hit_after_unarmed (arm hit : string → bool) (x : string)
    (rest : list string) :
  arm x = false →
  hit_after arm hit (x :: rest) = S <$> hit_after arm hit rest.
Proof.
  intros Hx. unfold hit_after. cbn [find_index]. rewrite Hx.
  destruct (find_index arm rest) as [i|]; [|done]. cbn.
  by destruct (find_index hit (drop i rest)).
Qed.

Section FlagFacts.
Variables arm hit : string → bool.

(** A flag fires no more often than it is raised. *)
Lemma fire_trace_bound (flag : bool) (lines : list string) :
  count_where id (fire_trace arm hit flag lines) ≤
  (if flag then 1 else 0) + count_where arm lines.
Proof.
  revert flag. induction lines as [|x rest IH]; intros flag.
  - cbn. lia.
  - cbn [fire_trace count_where id].
    specialize (IH (flag_next arm hit flag x)). revert IH.
    unfold flag_next, fires_on, armed_on.
    destruct (arm x), flag, (hit x); cbn; lia.
Qed.

Lemma fire_trace_idle (lines : list string) :
  count_where arm lines = 0 →
  fire_trace arm hit false lines = indicator None lines.
Proof.
  rewrite indicator_None. induction lines as [|x rest IH]; [done|].
  cbn [count_where fire_trace fmap list_fmap].
  unfold flag_next, fires_on, armed_on.
  destruct (arm x); [done|]. cbn. intros H. by rewrite IH.
Qed.

Lemma fire_trace_armed (lines : list string) :
  count_where arm lines = 0 →
  fire_trace arm hit true lines = indicator (find_index hit lines) lines.
Proof.
  induction lines as [|x rest IH]; [done|].
  cbn [count_where fire_trace find_index].
  unfold flag_next, fires_on, armed_on.
  destruct (arm x); [done|]. cbn [Nat.add andb]. intros H.
  destruct (hit x).
  - by rewrite indicator_cons_0, fire_trace_idle.
  - by rewrite indicator_cons_S, IH.
Qed.

(** With the begin marker on at most one line, the flag fires at the
    first [hit] line at or after it, and nowhere else. *)
Lemma fire_trace_position (lines : list string) :
  count_where arm lines ≤ 1 →
  fire_trace arm hit false lines =
  indicator (hit_after arm hit lines) lines.
Proof.
  induction lines as [|x rest IH]; [done|].
  cbn [count_where]. destruct (arm x) eqn:Hx; intros H.
  - rewrite hit_after_armed by done.
    assert (count_where arm rest = 0) as H0 by lia.
    cbn [fire_trace find_index]. unfold flag_next, fires_on, armed_on.
    rewrite Hx. cbn [andb]. destruct (hit x).
    + by rewrite indicator_cons_0, fire_trace_idle.
    + by rewrite indicator_cons_S, fire_trace_armed.
  - rewrite hit_after_unarmed by done.
    cbn [fire_trace]. unfold flag_next, fires_on, armed_on.
    rewrite Hx. cbn [andb]. rewrite indicator_cons_S, IH; [done|lia].
Qed.

(** Whenever the flag fires, the line holds [hit], and some line before it
    (or that line) holds [arm] with no [hit] line in between. *)
Lemma fire_trace_armed_before (flag : bool) (lines : list string)
    (i : nat) :
  fire_trace arm hit flag lines !! i = Some true →
  ∃ line, lines !! i = Some line ∧ hit line = true ∧
    ((flag = true ∧
      ∀ k lk, k < i → lines !! k = Some lk → hit lk = false) ∨
     (∃ b lb, b ≤ i ∧ lines !! b = Some lb ∧ arm lb = true ∧
        ∀ k lk, b ≤ k < i → lines !! k = Some lk → hit lk = false)).
Proof.
  revert flag i. induction lines as [|x rest IH]; intros flag i; [done|].
  destruct i as [|i]; cbn [fire_trace].
  - intros [= Hf]. unfold fires_on, armed_on in Hf.
    apply andb_true_iff in Hf as [Ha Hh]. exists x.
    split_and!; [done..|]. destruct (arm x) eqn:Hx.
    + right. exists 0, x. split_and!; [done..|]. intros; lia.
    + left. split; [done|]. intros; lia.
  - intros Hf. destruct (IH _ _ Hf) as (line & Hl & Hh & Hcase).
    exists line. split_and!; [done..|].
    destruct Hcase as [[Hn Hfree]|(b & lb & Hb & Hlb & Harm & Hfree)].
    + unfold flag_next, fires_on, armed_on in Hn.
      destruct (arm x) eqn:Hx, flag, (hit x) eqn:Hhx; cbn in Hn;
        try discriminate Hn.
      * right. exists 0, x. split_and!; [lia|done..|].
        intros [|k] lk Hk Hlk; [by simplify_eq/=|].
        apply (Hfree k); [lia|done].
      * right. exists 0, x. split_and!; [lia|done..|].
        intros [|k] lk Hk Hlk; [by simplify_eq/=|].
        apply (Hfree k); [lia|done].
      * left. split; [done|].
        intros [|k] lk Hk Hlk; [by simplify_eq/=|].
        apply (Hfree k); [lia|done].
    + right. exists (S b), lb. split_and!; [lia|done..|].
      intros [|k] lk Hk Hlk; [lia|]. apply (Hfree k); [lia|done].
Qed.
End FlagFacts.

Lemma once_trace_done (mark : string → bool) (lines : list string) :
  once_trace mark true lines = indicator None lines.
Proof.
  rewrite indicator_None. induction lines as [|x rest IH]; [done|].
  cbn [once_trace fmap list_fmap]. rewrite andb_false_r. by rewrite IH.
Qed.

Lemma once_trace_position (mark : string → bool) (lines : list string) :
  once_trace mark false lines = indicator (find_index mark lines) lines.
Proof.
  induction lines as [|x rest IH]; [done|].
  cbn [once_trace find_index]. destruct (mark x); cbn [andb negb].
  - by rewrite indicator_cons_0, once_trace_done.
  - by rewrite indicator_cons_S, IH.
Qed.

Lemma marker_position (mark : string → bool) (lines : list string) :
  count_where mark lines ≤ 1 →
  mark <$> lines = indicator (find_index mark lines) lines.
Proof.
  induction lines as [|x rest IH]; [done|].
  cbn [count_where find_index fmap list_fmap]. destruct (mark x); intros H.
  - rewrite indicator_cons_0, indicator_None. f_equal.
    assert (count_where mark rest = 0) as H0 by lia. clear -H0.
    induction rest as [|y rest IH]; [done|]. cbn in *.
    destruct (mark y); [done|]. by rewrite IH.
  - rewrite indicator_cons_S. f_equal. apply IH. lia.
Qed.

(** ** The decisions, field by field *)

Lemma decisions_length (ins nt fw : bool) (lines : list string) :
  length (decisions ins nt fw lines) = length lines.
Proof.
  revert ins nt fw. induction lines as [|x rest IH]; intros; [done|].
  cbn [decisions length]. by rewrite IH.
Qed.

Lemma decisions_section (ins nt fw : bool) (lines : list string) :
  d_section <$> decisions ins nt fw lines =
  once_trace (contains project_marker) ins lines.
Proof.
  revert ins nt fw. induction lines as [|x rest IH]; intros; [done|].
  cbn [decisions once_trace fmap list_fmap d_section]. f_equal. apply IH.
Qed.

Lemma decisions_build (ins nt fw : bool) (lines : list string) :
  d_build <$> decisions ins nt fw lines =
  contains build_file_marker <$> lines.
Proof.
  revert ins nt fw. induction lines as [|x rest IH]; intros; [done|].
  cbn [decisions fmap list_fmap d_build]. f_equal. apply IH.
Qed.

Lemma decisions_frameworks (ins nt fw : bool) (lines : list string) :
  d_frameworks <$> decisions ins nt fw lines =
  fire_trace (contains frameworks_marker) (contains files_marker) fw lines.
Proof.
  revert ins nt fw. induction lines as [|x rest IH]; intros; [done|].
  cbn [decisions fire_trace fmap list_fmap d_frameworks]. f_equal. apply IH.
Qed.

Lemma decisions_target (ins nt fw : bool) (lines : list string) :
  d_target <$> decisions ins nt fw lines =
  fire_trace (contains native_target_marker) (contains product_type_marker)
    nt lines.
Proof.
  revert ins nt fw. induction lines as [|x rest IH]; intros; [done|].
  cbn [decisions fire_trace fmap list_fmap d_target]. f_equal. apply IH.
Qed.

Lemma count_where_fmap {A B} (f : A → B) (p : B → bool) (l : list A) :
  count_where p (f <$> l) = count_where (p ∘ f) l.
Proof. induction l as [|x l IH]; [done|]. cbn. by rewrite IH. Qed.

Lemma count_field (f : firing → bool) (ds : list firing) :
  count_where f ds = count_where id (f <$> ds).
Proof. by rewrite count_where_fmap. Qed.

Lemma firing_list_ext (ds ds' : list firing) :
  d_section <$> ds = d_section <$> ds' →
  d_build <$> ds = d_build <$> ds' →
  d_frameworks <$> ds = d_frameworks <$> ds' →
  d_target <$> ds = d_target <$> ds' →
  ds = ds'.
Proof.
  revert ds'. induction ds as [|[s b f t] ds IH]; intros [|[s' b' f' t'] ds'];
    cbn; try done.
  intros [= -> ?] [= -> ?] [= -> ?] [= -> ?]. f_equal. by apply IH.
Qed.

Lemma decision_at_fields (pos : injection → option nat)
    (lines : list string) :
  let ds := imap (λ i _, decision_at pos i) lines in
  d_section <$> ds = indicator (pos NewSection) lines ∧
  d_build <$> ds = indicator (pos BuildFiles) lines ∧
  d_frameworks <$> ds = indicator (pos FrameworksRefs) lines ∧
  d_target <$> ds = indicator (pos TargetDeps) lines.
Proof. cbn. unfold indicator. by rewrite !fmap_imap. Qed.

Lemma zip_with_imap {A B C} (f : A → B → C) (g : nat → A → B) (l : list A) :
  zip_with f l (imap g l) = imap (λ i x, f x (g i x)) l.
Proof.
  revert g. induction l as [|x l IH]; intros g; [done|].
  rewrite !imap_cons. cbn [zip_with]. by rewrite IH.
Qed.

(** With every begin marker on at most one line, the decisions are those of
    the positions the markers define. *)
Lemma decisions_positions (lines : list string) :
  markers_at_most_once lines = true →
  decisions false false false lines =
  imap (λ i _, decision_at (λ k, position_of k lines) i) lines.
Proof.
  unfold markers_at_most_once. rewrite !andb_true_iff, !Nat.leb_le.
  intros [[[Hb Hf] Ht] _].
  destruct (decision_at_fields (λ k, position_of k lines) lines)
    as (Es & Eb & Ef & Et).
  apply firing_list_ext.
  - rewrite Es, decisions_section. apply once_trace_position.
  - rewrite Eb, decisions_build. by apply marker_position.
  - rewrite Ef, decisions_frameworks. by apply fire_trace_position.
  - rewrite Et, decisions_target. by apply fire_trace_position.
Qed.

Lemma position_of_lt (k : injection) (lines : list string) (j : nat) :
  position_of k lines = Some j → j < length lines.
Proof.
  destruct k; cbn; eauto using find_index_lt, hit_after_lt.
Qed.




(** ** Counting an identifier across line boundaries *)

Lemma occurrences_empty (n : string) :
  n ≠ EmptyString → occurrences n EmptyString = 0.
Proof. by destruct n. Qed.

Section Needle.
(** [n] is a non-empty needle and [x] a character it does not hold: no
    occurrence of [n] reaches across an [x]. *)
Variable n : string.
Variable x : ascii.
Hypothesis n_nonempty : n ≠ EmptyString.
Hypothesis x_fresh : mem_char x n = false.

Lemma is_prefix_cut (a b : string) :
  is_prefix n (a +:+ String x b) = is_prefix n a.
Proof using x_fresh.
  clear n_nonempty. revert x_fresh. generalize n as m. intros m. revert m.
  induction a as [|c a IH]; intros [|d m] Hm; try done.
  - rewrite app_empty_l. cbn [is_prefix mem_char] in *.
    apply orb_false_iff in Hm as [-> _]. done.
  - rewrite app_cons. cbn [is_prefix mem_char] in *.
    apply orb_false_iff in Hm as [_ Hm]. by rewrite IH.
Qed.

Lemma occurrences_skip (b : string) :
  occurrences n (String x b) = occurrences n b.
Proof using n_nonempty x_fresh.
  cbn [occurrences].
  rewrite <- (app_empty_l (String x b)), is_prefix_cut.
  destruct n; [done|]. done.
Qed.

Lemma occurrences_cut (a b : string) :
  occurrences n (a +:+ String x b) =
  occurrences n a + occurrences n b.
Proof using n_nonempty x_fresh.
  induction a as [|c a IH].
  - by rewrite app_empty_l, occurrences_skip, occurrences_empty.
  - rewrite app_cons. cbn [occurrences].
    rewrite <- app_cons, is_prefix_cut, IH. lia.
Qed.

Lemma occurrences_ended (a b : string) :
  ends_with x a = true →
  occurrences n (a +:+ b) = occurrences n a + occurrences n b.
Proof using n_nonempty x_fresh.
  intros [a0 ->]%ends_with_inv.
  rewrite app_assoc_str, app_cons, app_empty_l, !occurrences_cut.
  rewrite occurrences_empty by done. lia.
Qed.

Lemma occurrences_started (a b : string) :
  starts_with x b = true →
  occurrences n (a +:+ b) = occurrences n a + occurrences n b.
Proof using n_nonempty x_fresh.
  intros [b0 ->]%starts_with_inv.
  by rewrite occurrences_cut, occurrences_skip.
Qed.
End Needle.

Lemma sentinel_nonempty : mlx_dep_id ≠ EmptyString.
Proof. done. Qed.

Lemma sentinel_no_lf : mem_char "010" mlx_dep_id = false.
Proof. reflexivity. Qed.

Lemma sentinel_no_tab : mem_char "009" mlx_dep_id = false.
Proof. reflexivity. Qed.

(** The lines appended after an input line: together they start with a tab
    and end with a line feed, and hold the sentinel once for the build
    files and once for the dependency sub-block. *)
Lemma appended_shape (b f t : bool) :
  let T := join ((if b then build_file_lines else []) ++
                 (if f then frameworks_lines else []) ++
                 (if t then dependency_block else [])) in
  (T = EmptyString ∨
   (starts_with "009" T = true ∧ ends_with "010" T = true)) ∧
  occurrences mlx_dep_id T = (if b then 1 else 0) + (if t then 1 else 0).
Proof.
  destruct b, f, t; vm_compute;
    (split; [first [left; reflexivity | right; split; reflexivity]
            | reflexivity]).
Qed.

Lemma section_shape (s : bool) :
  let S := join (if s then dependency_section else []) in
  (S = EmptyString ∨ ends_with "010" S = true) ∧
  occurrences mlx_dep_id S = if s then 1 else 0.
Proof.
  destruct s; vm_compute;
    (split; [first [left; reflexivity | right; reflexivity] | reflexivity]).
Qed.

Lemma starts_with_app (c : ascii) (a b : string) :
  starts_with c a = true → starts_with c (a +:+ b) = true.
Proof. by destruct a. Qed.

Lemma occurrences_sandwich (S l T R : string) :
  (S = EmptyString ∨ ends_with "010" S = true) →
  (T = EmptyString ∨
   (starts_with "009" T = true ∧ ends_with "010" T = true)) →
  (R = EmptyString ∨ ends_with "010" l = true) →
  occurrences mlx_dep_id ((S +:+ (l +:+ T)) +:+ R) =
  occurrences mlx_dep_id S + occurrences mlx_dep_id l +
  occurrences mlx_dep_id T + occurrences mlx_dep_id R.
Proof.
  intros HS HT HR.
  pose proof (occurrences_empty _ sentinel_nonempty) as E0.
  pose proof (occurrences_ended _ _ sentinel_nonempty sentinel_no_lf) as Elf.
  pose proof (occurrences_started _ _ sentinel_nonempty sentinel_no_tab)
    as Etab.
  rewrite !app_assoc_str.
  assert (occurrences mlx_dep_id (l +:+ T +:+ R) =
          occurrences mlx_dep_id l + occurrences mlx_dep_id T +
          occurrences mlx_dep_id R) as Hrest.
  { destruct HT as [->|[Hs He]].
    - rewrite app_empty_l, E0. destruct HR as [->|Hl].
      + rewrite app_empty_r, E0. lia.
      + rewrite Elf by done. lia.
    - rewrite Etab by (by apply starts_with_app). rewrite Elf by done. lia. }
  destruct HS as [->|HS].
  - rewrite app_empty_l, E0, Hrest. lia.
  - rewrite Elf by done. rewrite Hrest. lia.
Qed.

Lemma join_render (line : string) (d : firing) :
  join (render line d) =
  join (if d_section d then dependency_section else []) +:+
  (line +:+ join ((if d_build d then build_file_lines else []) ++
                  (if d_frameworks d then frameworks_lines else []) ++
                  (if d_target d then dependency_block else []))).
Proof. unfold render, render_after. by rewrite join_app. Qed.

Lemma rendered_occurrences (lines : list string) (ds : list firing) :
  terminated lines →
  Forall (λ l, occurrences mlx_dep_id l = 0) lines →
  length ds = length lines →
  occurrences mlx_dep_id (join (concat (zip_with render lines ds))) =
  count_where d_section ds + count_where d_build ds +
  count_where d_target ds.
Proof.
  revert ds. induction lines as [|l rest IH]; intros [|d ds]; try done.
  intros [Hl Hterm] Hocc [= Hlen]. apply Forall_cons in Hocc as [Hl0 Hocc].
  cbn [zip_with concat count_where]. rewrite join_app, join_render.
  destruct (section_shape (d_section d)) as [HS ES].
  destruct (appended_shape (d_build d) (d_frameworks d) (d_target d))
    as [HT ET].
  cbn zeta in HS, ES, HT, ET.
  rewrite occurrences_sandwich; [| done | done |].
  - rewrite ES, ET, Hl0, (IH _ Hterm Hocc Hlen).
    destruct (d_section d), (d_build d), (d_target d); lia.
  - destruct Hl as [->|Hl]; [left|by right]. by destruct ds.
Qed.

Lemma lines_without (n : string) (lines : list string) :
  contains n (join lines) = false →
  Forall (λ l, occurrences n l = 0) lines.
Proof.
  intros H. apply Forall_forall. intros l Hl.
  apply occurrences_contains. destruct (contains n l) eqn:E; [|done].
  by rewrite (contains_join _ _ _ Hl E) in H.
Qed.

(** How often the sentinel occurs in the document a run writes. *)
Lemma patched_occurrences (text : string) :
  contains mlx_dep_id text = false →
  let ds := decisions false false false (readlines text) in
  occurrences mlx_dep_id (join (patch_lines (readlines text))) =
  count_where d_section ds + count_where d_build ds +
  count_where d_target ds.
Proof.
  intros H. cbn zeta. rewrite patch_lines_decisions.
  apply rendered_occurrences.
  - apply readlines_terminated.
  - apply lines_without. by rewrite join_readlines.
  - apply decisions_length.
Qed.

(** ** The script as a whole *)

Lemma appender_done (ls acc : list string) :
  fold_left appender_step ls (AppenderState acc true) =
  AppenderState (acc ++ ls) true.
Proof.
  revert acc. induction ls as [|l ls IH]; intros acc.
  - cbn. by rewrite app_nil_r.
  - cbn [fold_left]. unfold appender_step at 2.
    cbn [final_lines inserted_deps]. rewrite andb_false_r.
    by rewrite IH, <- (assoc_L (++)).
Qed.

(** C4: when the document holds the sentinel identifier, the run writes
    nothing: the files are as before, the only effect is the line
    [Project already patched.] on standard output, and the exit status
    is 0. *)
Theorem guard_leaves_file_untouched (w : world) (text : string) :
  files w !! path = Some text →
  contains mlx_dep_id text = true →
  main w =
  Exited 0
    (World (files w)
       (log w ++ [EvPrint ("Project already patched." +:+ LF)])).
Proof. intros Hf Hc. by rewrite (main_guard _ _ Hf Hc). Qed.

Lemma guard_leaves_file_untouched_witness :
  files (disk already_patched) !! path = Some already_patched ∧
  contains mlx_dep_id already_patched = true ∧
  main (disk already_patched) =
  Exited 0
    (World (files (disk already_patched))
       (log (disk already_patched) ++
        [EvPrint ("Project already patched." +:+ LF)])).
Proof.
  assert (files (disk already_patched) !! path = Some already_patched)
    as Hf by (by vm_compute).
  assert (contains mlx_dep_id already_patched = true)
    as Hc by (by vm_compute).
  split_and!; [done..|].
  exact (guard_leaves_file_untouched _ _ Hf Hc).
Defined.



(** ** Documents whose markers occur at most once *)

Lemma field_counts (lines : list string) (k : injection) :
  markers_at_most_once lines = true →
  count_where (field k) (decisions false false false lines) =
  match position_of k lines with Some _ => 1 | None => 0 end.
Proof.
  intros H. rewrite decisions_positions by done.
  destruct (decision_at_fields (λ k, position_of k lines) lines)
    as (Es & Eb & Ef & Et). cbn zeta in *.
  rewrite count_field.
  destruct k; cbn [field]; rewrite ?Es, ?Eb, ?Ef, ?Et;
    apply indicator_count; intros j; apply position_of_lt.
Qed.

Lemma all_markers_positions (lines : list string) :
  all_markers_once lines = true →
  markers_at_most_once lines = true ∧
  ∀ k, is_Some (position_of k lines).
Proof.
  unfold all_markers_once, markers_at_most_once.
  rewrite !andb_true_iff, !Nat.eqb_eq, !Nat.leb_le, !bool_decide_eq_true.
  intros [[[[[Hb Hf] Hfp] Ht] Htp] Hp]. split; [lia|].
  intros [| | |]; cbn [position_of] in *; try done;
    apply find_index_is_Some; lia.
Qed.

(** ** The sentinel in the written document *)

Lemma document_after_patch (w : world) (text : string) :
  files w !! path = Some text →
  contains mlx_dep_id text = false →
  document_after (main w) = Some (join (patch_lines (readlines text))).
Proof.
  intros Hf Hc. rewrite (main_patch _ _ Hf Hc).
  cbn [document_after print write_file files]. apply lookup_insert_eq.
Qed.

Lemma document_after_guard (w : world) (text : string) :
  files w !! path = Some text →
  contains mlx_dep_id text = true →
  document_after (main w) = Some text.
Proof. intros Hf Hc. by rewrite (main_guard _ _ Hf Hc). Qed.

(** C1, as the code has it: with all four marker lines present once each
    and no sentinel in the input, the written document holds the sentinel
    exactly three times: once in the build-file declarations, once in the
    target's dependency list and once in the new section.  The frameworks
    phase lines name the build-file identifiers and never the sentinel. *)
Theorem sentinel_occurs_three_times (w : world) (text : string) :
  files w !! path = Some text →
  contains mlx_dep_id text = false →
  all_markers_once (readlines text) = true →
  sentinel_count (main w) = Some 3 ∧
  occurrences mlx_dep_id (join build_file_lines) = 1 ∧
  occurrences mlx_dep_id (join frameworks_lines) = 0 ∧
  occurrences mlx_dep_id (join dependency_block) = 1 ∧
  occurrences mlx_dep_id (join dependency_section) = 1.
Proof.
  intros Hf Hc [Hmost Hpos]%all_markers_positions.
  split_and!; [|by vm_compute..].
  unfold sentinel_count. rewrite (document_after_patch _ _ Hf Hc).
  cbn [fmap option_fmap option_map]. f_equal.
  rewrite patched_occurrences by done. cbn zeta.
  pose proof (field_counts _ NewSection Hmost) as Hs.
  pose proof (field_counts _ BuildFiles Hmost) as Hb.
  pose proof (field_counts _ TargetDeps Hmost) as Ht.
  destruct (Hpos NewSection) as [? Es], (Hpos BuildFiles) as [? Eb],
    (Hpos TargetDeps) as [? Et].
  rewrite Es in Hs. rewrite Eb in Hb. rewrite Et in Ht.
  cbn [field] in *. by rewrite Hs, Hb, Ht.
Qed.

Lemma sentinel_occurs_three_times_witness :
  files (disk sample) !! path = Some sample ∧
  contains mlx_dep_id sample = false ∧
  all_markers_once (readlines sample) = true ∧
  sentinel_count (main (disk sample)) = Some 3 ∧
  occurrences mlx_dep_id (join build_file_lines) = 1 ∧
  occurrences mlx_dep_id (join frameworks_lines) = 0 ∧
  occurrences mlx_dep_id (join dependency_block) = 1 ∧
  occurrences mlx_dep_id (join dependency_section) = 1.
Proof.
  assert (files (disk sample) !! path = Some sample) as Hf by (by vm_compute).
  assert (contains mlx_dep_id sample = false) as Hc by (by vm_compute).
  assert (all_markers_once (readlines sample) = true)
    as Hm by (by vm_compute).
  do 3 (split; [done|]).
  exact (sentinel_occurs_three_times _ _ Hf Hc Hm).
Defined.

(** C1 as stated fails: [sample] has all four marker lines once each and
    no sentinel, and the document written for it does not hold the
    sentinel four times. *)
Lemma sentinel_four_times_counterexample :
  files (disk sample) !! path = Some sample ∧
  contains mlx_dep_id sample = false ∧
  all_markers_once (readlines sample) = true ∧
  sentinel_count (main (disk sample)) ≠ Some 4.
Proof. split_and!; by vm_compute. Qed.

(** ** Running the script twice *)

Lemma rendered_unfired (lines : list string) (ds : list firing) :
  length ds = length lines →
  count_where d_section ds = 0 →
  count_where d_build ds = 0 →
  count_where d_frameworks ds = 0 →
  count_where d_target ds = 0 →
  concat (zip_with render lines ds) = lines.
Proof.
  revert ds. induction lines as [|l rest IH]; intros [|[s b f t] ds];
    try done.
  intros [= Hlen]. cbn [count_where d_section d_build d_frameworks d_target].
  destruct s, b, f, t; cbn [Nat.add]; try done.
  intros Hs Hb Hf Ht. cbn [zip_with concat]. rewrite IH by done. done.
Qed.

(** Where the guard does keep a second run from touching the document:
    the input holds the sentinel, or the first run fires at least one of
    the three injections that write the sentinel (build files, target
    dependencies, new section), or the frameworks phase injection does not
    fire. *)
Theorem second_run_changes_nothing (w : world) (text : string) :
  files w !! path = Some text →
  contains mlx_dep_id text
  || (0 <? count_where d_section (decisions false false false (readlines text))
         + count_where d_build (decisions false false false (readlines text))
         + count_where d_target (decisions false false false (readlines text)))
  || (count_where d_frameworks (decisions false false false (readlines text))
      =? 0) = true →
  ∃ doc,
    document_after (main w) = Some doc ∧
    document_after (run_again (main w)) = Some doc.
Proof.
  intros Hf H. destruct (contains mlx_dep_id text) eqn:Hc.
  - exists text. split; [by apply document_after_guard|].
    rewrite (main_guard _ _ Hf Hc). cbn [run_again].
    by apply document_after_guard.
  - cbn [orb] in H. set (out := join (patch_lines (readlines text))).
    exists out. split; [by apply document_after_patch|].
    rewrite (main_patch _ _ Hf Hc). cbn [run_again]. fold out.
    assert (files (print "Project patched successfully."
                     (write_file path out w)) !! path = Some out) as Hf'.
    { cbn [print write_file files]. apply lookup_insert_eq. }
    pose proof (patched_occurrences text Hc) as Hocc. cbn zeta in Hocc.
    fold out in Hocc. apply orb_true_iff in H as [H|H].
    + apply Nat.ltb_lt in H.
      apply document_after_guard; [done|].
      destruct (contains mlx_dep_id out) eqn:E; [done|].
      apply occurrences_contains in E. lia.
    + apply Nat.eqb_eq in H.
      destruct (contains mlx_dep_id out) eqn:E;
        [by apply document_after_guard|].
      apply occurrences_contains in E.
      assert (patch_lines (readlines text) = readlines text) as Hsame.
      { rewrite patch_lines_decisions.
        apply rendered_unfired; [apply decisions_length|lia..]. }
      assert (out = text) as Hout.
      { unfold out. by rewrite Hsame, join_readlines. }
      rewrite (document_after_patch _ text); [by fold out|by rewrite <- Hout|done].
Qed.

Lemma second_run_changes_nothing_witness :
  files (disk sample) !! path = Some sample ∧
  ∃ doc,
    document_after (main (disk sample)) = Some doc ∧
    document_after (run_again (main (disk sample))) = Some doc.
Proof.
  assert (files (disk sample) !! path = Some sample) as Hf by (by vm_compute).
  split; [done|].
  apply (second_run_changes_nothing _ _ Hf). by vm_compute.
Defined.

(** C3: applying the script twice is not the same as applying it once.
    The guard that checks for an earlier patch looks for one identifier
    only; for [frameworks_only] the first run adds the three reference
    lines, none of which holds it, and the second run adds them once more:
    seven lines after the first run, ten after the second. *)
Lemma second_run_counterexample :
  document_after (run_again (main (disk frameworks_only))) ≠
  document_after (main (disk frameworks_only)) ∧
  (length ∘ readlines <$> document_after (main (disk frameworks_only))) =
  Some (4 + 3) ∧
  (length ∘ readlines <$>
   document_after (run_again (main (disk frameworks_only)))) =
  Some (4 + 3 + 3).
Proof.
  assert ((length ∘ readlines <$>
           document_after (main (disk frameworks_only))) = Some (4 + 3))
    as H1 by (by vm_compute).
  assert ((length ∘ readlines <$>
           document_after (run_again (main (disk frameworks_only)))) =
          Some (4 + 3 + 3)) as H2 by (by vm_compute).
  split_and!; [|done..]. intros E. rewrite E, H1 in H2. discriminate H2.
Qed.

(** ** How often and where the injections fire *)

(** C2, as the code has it: per run the new section goes in at most once;
    the frameworks-phase and target-dependency injections fire at most
    once per arming, so no more often than their begin marker occurs (a
    later begin-marker line raises the flag again); and the build-file
    lines, which no flag guards, follow every line that holds the
    build-file marker. *)
Theorem injections_fire_once_per_arming (lines : list string) :
  patch_lines lines =
  concat (zip_with render lines (decisions false false false lines)) ∧
  count_where d_section (decisions false false false lines) ≤ 1 ∧
  count_where d_frameworks (decisions false false false lines) ≤
  count_where (contains frameworks_marker) lines ∧
  count_where d_target (decisions false false false lines) ≤
  count_where (contains native_target_marker) lines ∧
  count_where d_build (decisions false false false lines) =
  count_where (contains build_file_marker) lines.
Proof.
  split_and!.
  - apply patch_lines_decisions.
  - rewrite count_field, decisions_section, once_trace_position.
    rewrite indicator_count by apply find_index_lt.
    destruct (find_index _ _); lia.
  - rewrite count_field, decisions_frameworks.
    apply (fire_trace_bound _ _ false).
  - rewrite count_field, decisions_target.
    apply (fire_trace_bound _ _ false).
  - by rewrite count_field, decisions_build, count_where_fmap.
Qed.

(** C2 as stated fails: in [twice_marked] the build-file marker recurs and
    so does the frameworks phase, and both injections are performed
    twice. *)
Lemma injections_fire_again_counterexample :
  count_where d_build (decisions false false false twice_marked) = 2 ∧
  count_where d_frameworks (decisions false false false twice_marked) = 2 ∧
  patch_lines twice_marked =
  take 1 twice_marked ++ build_file_lines ++
  take 1 (drop 1 twice_marked) ++ build_file_lines ++
  take 2 (drop 2 twice_marked) ++ frameworks_lines ++
  drop 4 twice_marked ++ frameworks_lines.
Proof. split_and!; by vm_compute. Qed.

(** What the flag of the native target does ensure: whenever the
    dependency sub-block is inserted after a line, that line holds the
    product-type marker, and at or before it there is a line holding the
    native target marker with no product-type line in between. *)
Theorem dependency_block_follows_armed_product_type
    (lines : list string) (i : nat) :
  (d_target <$> decisions false false false lines) !! i = Some true →
  patch_lines lines =
  concat (zip_with render lines (decisions false false false lines)) ∧
  ∃ line,
    lines !! i = Some line ∧
    contains product_type_marker line = true ∧
    ∃ b lb,
      b ≤ i ∧ lines !! b = Some lb ∧
      contains native_target_marker lb = true ∧
      ∀ k lk, b ≤ k < i → lines !! k = Some lk →
              contains product_type_marker lk = false.
Proof.
  rewrite decisions_target. intros H. split; [apply patch_lines_decisions|].
  destruct (fire_trace_armed_before _ _ _ _ _ H)
    as (line & Hl & Hh & [[? _]|Hb]); [done|].
  exists line. by split_and!.
Qed.

Lemma dependency_block_follows_armed_product_type_witness :
  (d_target <$> decisions false false false (readlines sample)) !! 8 =
  Some true ∧
  patch_lines (readlines sample) =
  concat (zip_with render (readlines sample)
            (decisions false false false (readlines sample))) ∧
  ∃ line,
    readlines sample !! 8 = Some line ∧
    contains product_type_marker line = true ∧
    ∃ b lb,
      b ≤ 8 ∧ readlines sample !! b = Some lb ∧
      contains native_target_marker lb = true ∧
      ∀ k lk, b ≤ k < 8 → readlines sample !! k = Some lk →
              contains product_type_marker lk = false.
Proof.
  assert ((d_target <$> decisions false false false (readlines sample)) !! 8
          = Some true) as H by (by vm_compute).
  split; [done|].
  exact (dependency_block_follows_armed_product_type _ _ H).
Defined.

(** C6: the sub-block does not always land in the native target block.
    In [stray_product_type] that block is closed at line 2 without a
    product type, the flag stays up, and the sub-block is inserted after
    line 4, a product-type line of another block, outside the native
    target block. *)
Lemma dependency_block_outside_target_counterexample :
  (d_target <$> decisions false false false stray_product_type) !! 4 =
  Some true ∧
  in_target_block stray_product_type 4 = false ∧
  patch_lines stray_product_type =
  take 5 stray_product_type ++ dependency_block ++
  drop 5 stray_product_type.
Proof. split_and!; by vm_compute. Qed.

(** ** The text of the written file *)

Lemma render_ended (line : string) (d : firing) :
  ends_with "010" line = true →
  Forall (λ l, ends_with "010" l = true) (render line d).
Proof.
  intros Hl. unfold render, render_after.
  destruct (d_section d), (d_build d), (d_frameworks d), (d_target d);
    repeat first [ apply Forall_nil_2
                 | apply Forall_cons; split; [first [exact Hl|by vm_compute]|]
                 | apply Forall_app; split ].
Qed.

Lemma readlines_cons (c : ascii) (s : string) :
  readlines (String c s) =
  if Ascii.eqb c "010" then LF :: readlines s
  else match readlines s with
       | [] => [String c EmptyString]
       | l :: ls => String c l :: ls
       end.
Proof. reflexivity. Qed.

Lemma readlines_nonempty (c : ascii) (s : string) :
  readlines (String c s) ≠ [].
Proof.
  rewrite readlines_cons. destruct (Ascii.eqb c "010"); [done|].
  by destruct (readlines s).
Qed.

Lemma readlines_app_ended (a b : string) :
  ends_with "010" a = true →
  readlines (a +:+ b) = readlines a ++ readlines b.
Proof.
  induction a as [|c a IH]; [done|]. intros H. rewrite app_cons.
  destruct a as [|d a].
  - cbn in H. rewrite app_empty_l, !readlines_cons, H. done.
  - specialize (IH H).
    rewrite (readlines_cons c (String d a +:+ b)),
      (readlines_cons c (String d a)), IH.
    destruct (Ascii.eqb c "010"); [done|].
    destruct (readlines (String d a)) eqn:E; [|done].
    by apply readlines_nonempty in E.
Qed.

(** Reading back what [writelines] wrote gives the lines of each element,
    when every element but the last ends with a line feed. *)
Lemma readlines_join (ls : list string) :
  terminated ls →
  readlines (join ls) = concat (readlines <$> ls).
Proof.
  induction ls as [|l rest IH]; [done|]. intros [Hl Hterm].
  cbn [join fmap list_fmap concat]. destruct Hl as [->|Hl].
  - cbn [join fmap list_fmap concat]. by rewrite app_empty_r, app_nil_r.
  - by rewrite readlines_app_ended, IH.
Qed.

(** A line read from a file is one line. *)
Lemma readlines_single (text : string) :
  Forall (λ l, readlines l = [l]) (readlines text).
Proof.
  induction text as [|c text IH]; [constructor|].
  rewrite readlines_cons. destruct (Ascii.eqb c "010") eqn:Hc.
  - constructor; [done|exact IH].
  - destruct (readlines text) as [|l ls].
    + constructor; [|constructor]. by rewrite readlines_cons, Hc.
    + apply Forall_cons in IH as [Hl Hls]. constructor; [|done].
      by rewrite readlines_cons, Hc, Hl.
Qed.

Lemma terminated_app (a b : list string) :
  Forall (λ l, ends_with "010" l = true) a →
  terminated b →
  terminated (a ++ b).
Proof.
  intros Ha Hb. induction Ha as [|x a Hx _ IH]; [done|].
  cbn [app terminated]. split; [by right|done].
Qed.

Lemma section_ended (s : bool) :
  Forall (λ l, ends_with "010" l = true)
    (if s then dependency_section else []).
Proof.
  destruct s; repeat first [apply Forall_nil_2
                           | apply Forall_cons; split; [by vm_compute|]].
Qed.

(** The list written keeps every element but the last ended by a line
    feed, as long as the lines a block is appended to are. *)
Lemma terminated_rendered (lines : list string) (ds : list firing) :
  terminated lines →
  Forall2 (λ l d, d_build d || d_frameworks d || d_target d = true →
                  ends_with "010" l = true) lines ds →
  terminated (concat (zip_with render lines ds)).
Proof.
  intros Hterm H. induction H as [|l d rest ds Hld _ IH]; [done|].
  destruct Hterm as [Hl Hterm]. cbn [zip_with concat].
  destruct (ends_with "010" l) eqn:E.
  - apply terminated_app; [by apply render_ended|by apply IH].
  - destruct Hl as [->|?]; [|done].
    destruct (d_build d || d_frameworks d || d_target d) eqn:Hfire;
      [by specialize (Hld eq_refl)|].
    apply orb_false_iff in Hfire as [[Hb Hf]%orb_false_iff Ht].
    cbn [zip_with concat]. rewrite app_nil_r.
    unfold render, render_after. rewrite Hb, Hf, Ht. cbn [app].
    apply terminated_app; [apply section_ended|]. cbn. tauto.
Qed.

Lemma block_texts :
  concat (readlines <$> dependency_section) = section_text ∧
  concat (readlines <$> build_file_lines) = build_file_text ∧
  concat (readlines <$> frameworks_lines) = reference_text ∧
  concat (readlines <$> dependency_block) = dependency_text.
Proof. split_and!; by vm_compute. Qed.

Lemma render_as_text (line : string) (d : firing) :
  readlines line = [line] →
  concat (readlines <$> render line d) = render_text line d.
Proof.
  intros H. destruct block_texts as (Es & Eb & Ef & Et).
  unfold render, render_after, render_text.
  rewrite !fmap_app, !concat_app. cbn [fmap list_fmap concat].
  rewrite H, app_nil_r.
  destruct (d_section d), (d_build d), (d_frameworks d), (d_target d);
    rewrite ?Es, ?Eb, ?Ef, ?Et; reflexivity.
Qed.

Lemma rendered_as_text (lines : list string) (ds : list firing) :
  Forall (λ l, readlines l = [l]) lines →
  concat (readlines <$> concat (zip_with render lines ds)) =
  concat (zip_with render_text lines ds).
Proof.
  intros H. revert ds. induction H as [|l rest Hl _ IH]; intros [|d ds];
    try done.
  cbn [zip_with concat]. by rewrite fmap_app, concat_app, render_as_text, IH.
Qed.

Lemma render_text_length (line : string) (d : firing) :
  length (render_text line d) =
  1 + (if d_section d then length section_text else 0)
    + (if d_build d then length build_file_text else 0)
    + (if d_frameworks d then length reference_text else 0)
    + (if d_target d then length dependency_text else 0).
Proof.
  unfold render_text. rewrite !length_app.
  destruct (d_section d), (d_build d), (d_frameworks d), (d_target d);
    cbn; lia.
Qed.

Lemma rendered_text_length (lines : list string) (ds : list firing) :
  length ds = length lines →
  length (concat (zip_with render_text lines ds)) =
  length lines +
  (length section_text * count_where d_section ds +
   length build_file_text * count_where d_build ds +
   length reference_text * count_where d_frameworks ds +
   length dependency_text * count_where d_target ds).
Proof.
  revert ds. induction lines as [|x rest IH]; intros [|d ds]; try done.
  intros [= Hlen]. cbn [zip_with concat count_where].
  rewrite length_app, render_text_length, (IH _ Hlen). cbn [length].
  destruct (d_section d), (d_build d), (d_frameworks d), (d_target d); lia.
Qed.

Lemma ended_at_Some (o : option nat) (lines : list string) (j : nat)
    (l : string) :
  ended_at o lines = true → o = Some j → lines !! j = Some l →
  ends_with "010" l = true.
Proof. intros H -> Hl. unfold ended_at in H. by rewrite Hl in H. Qed.

(** The text written for a manifest whose begin markers occur at most
    once, line by line. *)
Lemma written_text (lines : list string) :
  terminated lines →
  Forall (λ l, readlines l = [l]) lines →
  markers_at_most_once lines = true →
  receivers_terminated lines = true →
  readlines (join (patch_lines lines)) =
  expected_text (λ k, position_of k lines) lines ∧
  length (readlines (join (patch_lines lines))) =
  length lines +
  sum_list ((λ k, match position_of k lines with
                  | Some _ => length (readlines (join (injected k)))
                  | None => 0
                  end) <$> [BuildFiles; FrameworksRefs; TargetDeps; NewSection]).
Proof.
  intros Hterm Hsingle Hmost Hrecv.
  assert (readlines (join (patch_lines lines)) =
          concat (zip_with render_text lines
                    (decisions false false false lines))) as Htext.
  { rewrite patch_lines_decisions, readlines_join.
    - by apply rendered_as_text.
    - apply terminated_rendered; [done|].
      rewrite decisions_positions by done.
      apply Forall2_same_length_lookup. split; [by rewrite length_imap|].
      intros i l d Hl Hd. rewrite list_lookup_imap, Hl in Hd.
      injection Hd as <-. cbn [decision_at d_build d_frameworks d_target].
      unfold receivers_terminated in Hrecv.
      apply andb_true_iff in Hrecv as [[Rb Rf]%andb_true_iff Rt].
      rewrite !orb_true_iff, !bool_decide_eq_true.
      intros [[E|E]|E]; eauto using ended_at_Some. }
  split.
  - rewrite Htext, decisions_positions, zip_with_imap by done.
    unfold expected_text, insert_blocks. f_equal.
  - rewrite Htext, rendered_text_length by apply decisions_length.
    f_equal.
    pose proof (field_counts lines BuildFiles Hmost) as Hb.
    pose proof (field_counts lines FrameworksRefs Hmost) as Hf.
    pose proof (field_counts lines TargetDeps Hmost) as Ht.
    pose proof (field_counts lines NewSection Hmost) as Hs.
    cbn [field] in *. rewrite Hb, Hf, Ht, Hs.
    cbn [fmap list_fmap sum_list sum_list_with injected].
    assert (length (readlines (join build_file_lines)) =
            length build_file_text) as -> by (by vm_compute).
    assert (length (readlines (join frameworks_lines)) =
            length reference_text) as -> by (by vm_compute).
    assert (length (readlines (join dependency_block)) =
            length dependency_text) as -> by (by vm_compute).
    assert (length (readlines (join dependency_section)) =
            length section_text) as -> by (by vm_compute).
    destruct (position_of BuildFiles lines),
      (position_of FrameworksRefs lines), (position_of TargetDeps lines),
      (position_of NewSection lines); unfold id; lia.
Qed.

Lemma main_patch_effects (w : world) (text : string) :
  files w !! path = Some text →
  contains mlx_dep_id text = false →
  main w =
  Exited 0
    (World (<[path := join (patch_lines (readlines text))]> (files w))
       (log w ++ [EvWrite path (join (patch_lines (readlines text)));
                  EvPrint ("Project patched successfully." +:+ LF)])).
Proof.
  intros Hf Hc. rewrite (main_patch _ _ Hf Hc).
  unfold print, write_file. cbn [files log].
  by rewrite <- (assoc_L (++)).
Qed.



(** C5, as the code has it: with all four marker lines present once each,
    no sentinel, and a line feed at the end of every line that gets a
    block appended, the run writes a file whose lines are those of the
    input with exactly this added: the three build-file lines immediately
    after the build-file marker line, the three reference lines
    immediately after the frameworks phase's open-list line, the five
    lines of the dependency sub-block immediately after the target's
    product-type line, and the eighteen lines of the new section
    immediately before the project-section marker line. *)
Theorem all_markers_complete_injection (w : world) (text : string) :
  files w !! path = Some text →
  contains mlx_dep_id text = false →
  all_markers_once (readlines text) = true →
  receivers_terminated (readlines text) = true →
  ∃ ib jf jt ip out,
    position_of BuildFiles (readlines text) = Some ib ∧
    position_of FrameworksRefs (readlines text) = Some jf ∧
    position_of TargetDeps (readlines text) = Some jt ∧
    position_of NewSection (readlines text) = Some ip ∧
    main w =
    Exited 0
      (World (<[path := out]> (files w))
         (log w ++ [EvWrite path out;
                    EvPrint ("Project patched successfully." +:+ LF)])) ∧
    readlines out = expected_text (positions ib jf jt ip) (readlines text) ∧
    length (readlines out) = length (readlines text) + 3 + 3 + 5 + 18.
Proof.
  intros Hf Hc [Hmost Hpos]%all_markers_positions Hrecv.
  destruct (Hpos BuildFiles) as [ib Hib], (Hpos FrameworksRefs) as [jf Hjf],
    (Hpos TargetDeps) as [jt Hjt], (Hpos NewSection) as [ip Hip].
  destruct (written_text (readlines text) (readlines_terminated text)
              (readlines_single text) Hmost Hrecv) as [Htext Hlen].
  exists ib, jf, jt, ip, (join (patch_lines (readlines text))).
  split_and!; [done..|by apply main_patch_effects| |].
  - rewrite Htext. unfold expected_text, insert_blocks. f_equal.
    apply imap_ext. intros i l _. cbn [positions].
    by rewrite Hib, Hjf, Hjt, Hip.
  - rewrite Hlen. cbn [fmap list_fmap sum_list sum_list_with].
    rewrite Hib, Hjf, Hjt, Hip.
    assert (length (readlines (join (injected BuildFiles))) = 3)
      as -> by (by vm_compute).
    assert (length (readlines (join (injected FrameworksRefs))) = 3)
      as -> by (by vm_compute).
    assert (length (readlines (join (injected TargetDeps))) = 5)
      as -> by (by vm_compute).
    assert (length (readlines (join (injected NewSection))) = 18)
      as -> by (by vm_compute).
    unfold id. lia.
Qed.

Lemma all_markers_complete_injection_witness :
  files (disk sample) !! path = Some sample ∧
  contains mlx_dep_id sample = false ∧
  all_markers_once (readlines sample) = true ∧
  receivers_terminated (readlines sample) = true ∧
  ∃ ib jf jt ip out,
    position_of BuildFiles (readlines sample) = Some ib ∧
    position_of FrameworksRefs (readlines sample) = Some jf ∧
    position_of TargetDeps (readlines sample) = Some jt ∧
    position_of NewSection (readlines sample) = Some ip ∧
    main (disk sample) =
    Exited 0
      (World (<[path := out]> (files (disk sample)))
         (log (disk sample) ++
          [EvWrite path out;
           EvPrint ("Project patched successfully." +:+ LF)])) ∧
    readlines out = expected_text (positions ib jf jt ip) (readlines sample) ∧
    length (readlines out) = length (readlines sample) + 3 + 3 + 5 + 18.
Proof.
  assert (files (disk sample) !! path = Some sample) as Hf by (by vm_compute).
  assert (contains mlx_dep_id sample = false) as Hc by (by vm_compute).
  assert (all_markers_once (readlines sample) = true)
    as Hm by (by vm_compute).
  assert (receivers_terminated (readlines sample) = true)
    as Hr by (by vm_compute).
  do 4 (split; [done|]).
  exact (all_markers_complete_injection _ _ Hf Hc Hm Hr).
Defined.

(** C5 as stated fails: [sample_unterminated] has all four marker lines
    once each and no sentinel, but its product-type line is the last line
    and has no line feed.  The opening key of the sub-block is written
    onto that same line, so the file does not hold the input's lines with
    the four blocks added. *)
Lemma unterminated_marker_line_counterexample :
  files (disk sample_unterminated) !! path = Some sample_unterminated ∧
  contains mlx_dep_id sample_unterminated = false ∧
  all_markers_once (readlines sample_unterminated) = true ∧
  (readlines <$> document_after (main (disk sample_unterminated))) ≠
  Some (expected_text (λ k, position_of k (readlines sample_unterminated))
          (readlines sample_unterminated)) ∧
  (readlines <$> document_after (main (disk sample_unterminated)))
    ≫= (.!! 34) =
  Some (TAB +:+ TAB +:+ TAB +:+ "productType = x;" +:+
        TAB +:+ TAB +:+ TAB +:+ "packageProductDependencies = (" +:+ LF).
Proof.
  split_and!; by vm_compute.
Qed.




(** * Further properties of the script *)

(** ** Lines without markers pass through *)

Lemma begins_nothing_inv (line : string) :
  begins_nothing line = true →
  contains build_file_marker line = false ∧
  contains frameworks_marker line = false ∧
  contains native_target_marker line = false ∧
  contains project_marker line = false.
Proof.
  unfold begins_nothing. rewrite !andb_true_iff, !negb_true_iff. tauto.
Qed.

Lemma unmarked_inv (line : string) :
  unmarked line = true →
  begins_nothing line = true ∧
  contains files_marker line = false ∧
  contains product_type_marker line = false.
Proof.
  unfold unmarked. rewrite !andb_true_iff, !negb_true_iff. tauto.
Qed.

Lemma inserter_idle (pre acc : list string) :
  forallb begins_nothing pre = true →
  fold_left inserter_step pre (InserterState acc false false) =
  InserterState (acc ++ pre) false false.
Proof.
  revert acc. induction pre as [|l pre IH]; intros acc H.
  - cbn. by rewrite app_nil_r.
  - cbn [forallb] in H. apply andb_true_iff in H as [Hl H].
    apply begins_nothing_inv in Hl as (Hb & Hf & Ht & _).
    cbn [fold_left]. unfold inserter_step at 2.
    cbn [new_lines in_native_target in_frameworks_phase].
    rewrite Hb, Hf, Ht. cbn [andb].
    by rewrite IH, <- (assoc_L (++)).
Qed.

Lemma inserter_unmarked (post acc : list string) (nt fw : bool) :
  forallb unmarked post = true →
  fold_left inserter_step post (InserterState acc nt fw) =
  InserterState (acc ++ post) nt fw.
Proof.
  revert acc. induction post as [|l post IH]; intros acc H.
  - cbn. by rewrite app_nil_r.
  - cbn [forallb] in H. apply andb_true_iff in H as [Hl H].
    apply unmarked_inv in Hl as (Hl & Hfi & Hpt).
    apply begins_nothing_inv in Hl as (Hb & Hf & Ht & _).
    cbn [fold_left]. unfold inserter_step at 2.
    cbn [new_lines in_native_target in_frameworks_phase].
    rewrite Hb, Hf, Ht, Hfi, Hpt, !andb_false_r.
    by rewrite IH, <- (assoc_L (++)).
Qed.

Lemma no_project_marker (ls : list string) :
  forallb begins_nothing ls = true →
  Forall (λ l, contains project_marker l = false) ls.
Proof.
  induction ls as [|l ls IH]; [constructor|]. cbn [forallb].
  intros [Hl H]%andb_true_iff. constructor; [|by apply IH].
  by apply begins_nothing_inv in Hl as (_ & _ & _ & ?).
Qed.

Lemma unmarked_begins_nothing (ls : list string) :
  forallb unmarked ls = true → forallb begins_nothing ls = true.
Proof.
  induction ls as [|l ls IH]; [done|]. cbn [forallb].
  intros [Hl H]%andb_true_iff. apply andb_true_iff. split; [|by apply IH].
  by apply unmarked_inv in Hl as [? _].
Qed.

Lemma appender_step_acc (acc : list string) (ins : bool) (l : string) :
  appender_step (AppenderState acc ins) l =
  AppenderState
    (acc ++ final_lines (appender_step (AppenderState [] ins) l))
    (inserted_deps (appender_step (AppenderState [] ins) l)).
Proof.
  unfold appender_step. cbn [final_lines inserted_deps].
  destruct (contains project_marker l && negb ins);
    cbn [final_lines inserted_deps app]; by rewrite <- ?(assoc_L (++)).
Qed.

Lemma appender_acc (ls acc : list string) (ins : bool) :
  fold_left appender_step ls (AppenderState acc ins) =
  AppenderState
    (acc ++ final_lines (fold_left appender_step ls (AppenderState [] ins)))
    (inserted_deps (fold_left appender_step ls (AppenderState [] ins))).
Proof.
  revert acc ins. induction ls as [|l ls IH]; intros acc ins.
  - cbn. by rewrite app_nil_r.
  - cbn [fold_left]. rewrite appender_step_acc.
    destruct (appender_step (AppenderState [] ins) l) as [e ins'].
    cbn [final_lines inserted_deps].
    rewrite (IH (acc ++ e) ins'), (IH e ins').
    cbn [final_lines inserted_deps]. by rewrite <- (assoc_L (++)).
Qed.

(** X2: lines holding none of the four begin markers ahead of the rest,
    and lines holding none of the six markers after it, are written as
    they are, and the rest is patched as if they were not there. *)
Theorem unmarked_lines_pass_through (pre lines post : list string) :
  forallb begins_nothing pre = true →
  forallb unmarked post = true →
  patch_lines (pre ++ lines ++ post) = pre ++ patch_lines lines ++ post.
Proof.
  intros Hpre Hpost. unfold patch_lines.
  assert (new_lines (inserter (pre ++ lines ++ post)) =
          pre ++ new_lines (inserter lines) ++ post) as ->.
  { unfold inserter, inserter_init.
    rewrite !fold_left_app, inserter_idle by done. cbn [app].
    destruct (fold_left inserter_step lines (InserterState pre false false))
      as [out nt fw] eqn:E.
    rewrite inserter_unmarked by done. cbn [new_lines].
    assert (out = pre ++ new_lines
              (fold_left inserter_step lines (InserterState [] false false)))
      as ->; [|by rewrite <- (assoc_L (++))].
    change out with (new_lines (InserterState out nt fw)). rewrite <- E.
    rewrite !(inserter_fold false). cbn [new_lines in_native_target
      in_frameworks_phase app]. done. }
  unfold appender. rewrite !fold_left_app.
  rewrite appender_skip by by apply no_project_marker.
  cbn [app]. rewrite appender_acc.
  destruct (fold_left appender_step (new_lines (inserter lines))
              (AppenderState [] false)) as [fin ins].
  cbn [final_lines inserted_deps]. destruct ins.
  - rewrite appender_done. cbn [final_lines]. by rewrite <- (assoc_L (++)).
  - rewrite appender_skip
      by by apply no_project_marker, unmarked_begins_nothing.
    cbn [final_lines]. by rewrite <- (assoc_L (++)).
Qed.

Lemma unmarked_lines_pass_through_witness :
  forallb begins_nothing ["// header" +:+ LF; files_marker +:+ LF] = true ∧
  forallb unmarked ["// trailer" +:+ LF] = true ∧
  patch_lines (["// header" +:+ LF; files_marker +:+ LF] ++
               readlines sample ++ ["// trailer" +:+ LF]) =
  ["// header" +:+ LF; files_marker +:+ LF] ++
  patch_lines (readlines sample) ++ ["// trailer" +:+ LF].
Proof.
  assert (forallb begins_nothing ["// header" +:+ LF; files_marker +:+ LF]
          = true) as H1 by (by vm_compute).
  assert (forallb unmarked ["// trailer" +:+ LF] = true)
    as H2 by (by vm_compute).
  do 2 (split; [done|]).
  exact (unmarked_lines_pass_through _ (readlines sample) _ H1 H2).
Defined.

(** X3: for a manifest without the sentinel in which no line holds a
    begin marker, the text written is the text read, line for line, and
    the run still reports [Project patched successfully.]. *)
Theorem markerless_manifest_rewritten_unchanged (w : world) (text : string) :
  files w !! path = Some text →
  contains mlx_dep_id text = false →
  forallb begins_nothing (readlines text) = true →
  patch_lines (readlines text) = readlines text ∧
  main w =
  Exited 0
    (World (<[path := text]> (files w))
       (log w ++ [EvWrite path text;
                  EvPrint ("Project patched successfully." +:+ LF)])).
Proof.
  intros Hf Hc H.
  assert (patch_lines (readlines text) = readlines text) as Hsame.
  { unfold patch_lines, inserter, inserter_init, appender.
    rewrite inserter_idle by done. cbn [new_lines app].
    by rewrite appender_skip by by apply no_project_marker. }
  split; [done|].
  by rewrite (main_patch_effects _ _ Hf Hc), Hsame, join_readlines.
Qed.

Lemma markerless_manifest_rewritten_unchanged_witness :
  files (disk ("// empty project" +:+ LF +:+ files_marker +:+ LF)) !! path =
  Some ("// empty project" +:+ LF +:+ files_marker +:+ LF) ∧
  contains mlx_dep_id ("// empty project" +:+ LF +:+ files_marker +:+ LF)
  = false ∧
  forallb begins_nothing
    (readlines ("// empty project" +:+ LF +:+ files_marker +:+ LF)) = true ∧
  patch_lines (readlines ("// empty project" +:+ LF +:+ files_marker +:+ LF))
  = readlines ("// empty project" +:+ LF +:+ files_marker +:+ LF) ∧
  main (disk ("// empty project" +:+ LF +:+ files_marker +:+ LF)) =
  Exited 0
    (World
       (<[path := "// empty project" +:+ LF +:+ files_marker +:+ LF]>
          (files (disk ("// empty project" +:+ LF +:+ files_marker +:+ LF))))
       (log (disk ("// empty project" +:+ LF +:+ files_marker +:+ LF)) ++
        [EvWrite path ("// empty project" +:+ LF +:+ files_marker +:+ LF);
         EvPrint ("Project patched successfully." +:+ LF)])).
Proof.
  assert (files (disk ("// empty project" +:+ LF +:+ files_marker +:+ LF))
            !! path =
          Some ("// empty project" +:+ LF +:+ files_marker +:+ LF))
    as Hf by (by vm_compute).
  assert (contains mlx_dep_id
            ("// empty project" +:+ LF +:+ files_marker +:+ LF) = false)
    as Hc by (by vm_compute).
  assert (forallb begins_nothing
            (readlines ("// empty project" +:+ LF +:+ files_marker +:+ LF))
          = true) as Hm by (by vm_compute).
  do 3 (split; [done|]).
  exact (markerless_manifest_rewritten_unchanged _ _ Hf Hc Hm).
Defined.

(** ** A second run after a patch *)

Lemma existsb_count {A} (p : A → bool) (l : list A) :
  existsb p l = true → 0 < count_where p l.
Proof.
  induction l as [|x l IH]; [done|]. cbn [existsb count_where].
  destruct (p x); cbn; [lia|]. intros H. specialize (IH H). lia.
Qed.

(** X4: when the manifest has no sentinel and some line holds the
    build-file marker or the project-section marker, the first run patches
    it and a second run finds the sentinel: it writes nothing and prints
    [Project already patched.]. *)
Theorem second_run_reports_already_patched (w : world) (text : string) :
  files w !! path = Some text →
  contains mlx_dep_id text = false →
  existsb (contains build_file_marker) (readlines text)
  || existsb (contains project_marker) (readlines text) = true →
  ∃ w1,
    main w = Exited 0 w1 ∧
    log w1 =
    log w ++ [EvWrite path (join (patch_lines (readlines text)));
              EvPrint ("Project patched successfully." +:+ LF)] ∧
    main w1 = Exited 0 (print "Project already patched." w1).
Proof.
  intros Hf Hc H. rewrite (main_patch _ _ Hf Hc). eexists.
  split; [done|]. split.
  { cbn [print write_file log]. by rewrite <- (assoc_L (++)). }
  apply (main_guard _ (join (patch_lines (readlines text)))).
  { cbn [print write_file files]. apply lookup_insert_eq. }
  destruct (contains mlx_dep_id (join (patch_lines (readlines text))))
    eqn:E; [done|].
  apply occurrences_contains in E.
  rewrite patched_occurrences in E by done. cbn zeta in E.
  apply orb_true_iff in H as [H|H]; apply existsb_count in H.
  - rewrite (count_field d_build), decisions_build, count_where_fmap in E.
    change (id ∘ contains build_file_marker)
      with (contains build_file_marker) in E. lia.
  - rewrite (count_field d_section), decisions_section,
      once_trace_position in E.
    rewrite indicator_count in E by apply find_index_lt.
    destruct (find_index_is_Some _ _ H) as [j Hj]. rewrite Hj in E. lia.
Qed.

Lemma second_run_reports_already_patched_witness :
  files (disk sample) !! path = Some sample ∧
  contains mlx_dep_id sample = false ∧
  existsb (contains build_file_marker) (readlines sample)
  || existsb (contains project_marker) (readlines sample) = true ∧
  ∃ w1,
    main (disk sample) = Exited 0 w1 ∧
    log w1 =
    log (disk sample) ++
    [EvWrite path (join (patch_lines (readlines sample)));
     EvPrint ("Project patched successfully." +:+ LF)] ∧
    main w1 = Exited 0 (print "Project already patched." w1).
Proof.
  assert (files (disk sample) !! path = Some sample) as Hf by (by vm_compute).
  assert (contains mlx_dep_id sample = false) as Hc by (by vm_compute).
  assert (existsb (contains build_file_marker) (readlines sample)
          || existsb (contains project_marker) (readlines sample) = true)
    as Hm by (by vm_compute).
  do 3 (split; [done|]).
  exact (second_run_reports_already_patched _ _ Hf Hc Hm).
Defined.

(** ** Bracket balance *)

Lemma balance_app (o c : ascii) (a b : string) :
  balance o c (a +:+ b) = (balance o c a + balance o c b)%Z.
Proof.
  induction a as [|x a IH]; [done|].
  rewrite app_cons. cbn [balance]. rewrite IH. lia.
Qed.

Lemma rendered_balance (o c : ascii) (lines : list string)
    (ds : list firing) :
  balance o c (join dependency_section) = 0%Z →
  balance o c (join build_file_lines) = 0%Z →
  balance o c (join frameworks_lines) = 0%Z →
  balance o c (join dependency_block) = 0%Z →
  length ds = length lines →
  balance o c (join (concat (zip_with render lines ds))) =
  balance o c (join lines).
Proof.
  intros Hs Hb Hf Ht. revert ds.
  induction lines as [|l rest IH]; intros [|d ds]; try done.
  intros [= Hlen]. cbn [zip_with concat join].
  rewrite join_app, !balance_app, join_render, (IH _ Hlen).
  rewrite !balance_app, !join_app, !balance_app.
  destruct (d_section d), (d_build d), (d_frameworks d), (d_target d);
    rewrite ?Hs, ?Hb, ?Hf, ?Ht; cbn [join balance]; lia.
Qed.

(** X5: patching keeps the brackets of the document in balance: the text
    written has as many more opening than closing braces as the text read,
    and likewise for parentheses. *)
Theorem patch_keeps_bracket_balance (lines : list string) :
  balance "{" "}" (join (patch_lines lines)) = balance "{" "}" (join lines) ∧
  balance "(" ")" (join (patch_lines lines)) = balance "(" ")" (join lines).
Proof.
  rewrite patch_lines_decisions.
  split; apply rendered_balance;
    solve [by vm_compute | apply decisions_length].
Qed.

(** ** The guard, line by line *)

Lemma terminated_occurrences (n : string) (lines : list string) :
  n ≠ EmptyString →
  mem_char "010" n = false →
  terminated lines →
  occurrences n (join lines) = sum_list (occurrences n <$> lines).
Proof.
  intros Hn Hlf. induction lines as [|l rest IH]; intros Hterm.
  - by apply occurrences_empty.
  - destruct Hterm as [Hl Hterm]. cbn [join fmap list_fmap sum_list
      sum_list_with]. unfold id at 1. rewrite <- (IH Hterm).
    destruct Hl as [->|Hl].
    + cbn [join]. rewrite app_empty_r, occurrences_empty by done. lia.
    + by apply (occurrences_ended n "010").
Qed.

Lemma sum_occurrences_existsb (n : string) (lines : list string) :
  sum_list (occurrences n <$> lines) = 0 ↔
  existsb (contains n) lines = false.
Proof.
  induction lines as [|l rest IH]; [done|].
  cbn [fmap list_fmap sum_list sum_list_with existsb]. unfold id at 1.
  rewrite orb_false_iff, <- IH, <- occurrences_contains.
  fold (sum_list (occurrences n <$> rest)). lia.
Qed.

(** X6: the guard looks at the joined text, yet it trips exactly when
    some single line holds the sentinel: an occurrence cannot reach across
    a line end. *)
Theorem guard_trips_on_a_line (text : string) :
  contains mlx_dep_id text = existsb (contains mlx_dep_id) (readlines text).
Proof.
  rewrite <- (join_readlines text) at 1.
  pose proof (terminated_occurrences mlx_dep_id (readlines text)
                sentinel_nonempty sentinel_no_lf (readlines_terminated text))
    as H.
  destruct (existsb (contains mlx_dep_id) (readlines text)) eqn:E.
  - destruct (contains mlx_dep_id (join (readlines text))) eqn:C; [done|].
    apply occurrences_contains in C. rewrite H in C.
    apply sum_occurrences_existsb in C. congruence.
  - apply sum_occurrences_existsb in E. rewrite <- H in E.
    by apply occurrences_contains.
Qed.

(** ** Line ends *)

(** X10: when every line read ends with a line feed, so does every element
    written; a manifest that ends with a line feed is written back ending
    with one. *)
Theorem patch_keeps_lines_terminated (lines : list string) :
  Forall (λ l, ends_with "010" l = true) lines →
  Forall (λ l, ends_with "010" l = true) (patch_lines lines).
Proof.
  rewrite patch_lines_decisions.
  generalize (decisions false false false lines) as ds.
  induction lines as [|l rest IH]; intros [|d ds] H; try constructor.
  apply Forall_cons in H as [Hl H]. cbn [zip_with concat].
  apply Forall_app. split; [by apply render_ended|by apply IH].
Qed.

Lemma patch_keeps_lines_terminated_witness :
  Forall (λ l, ends_with "010" l = true) (readlines sample) ∧
  Forall (λ l, ends_with "010" l = true) (patch_lines (readlines sample)).
Proof.
  assert (Forall (λ l, ends_with "010" l = true) (readlines sample))
    as H by (vm_compute; repeat constructor).
  split; [exact H|]. exact (patch_keeps_lines_terminated _ H).
Defined.

(** ** The first pass, one line at a time *)

Lemma inserter_flags (lines : list string) (st : inserter_state) :
  in_frameworks_phase (fold_left inserter_step lines st) =
  fold_left (flag_next (contains frameworks_marker) (contains files_marker))
    lines (in_frameworks_phase st) ∧
  in_native_target (fold_left inserter_step lines st) =
  fold_left (flag_next (contains native_target_marker)
               (contains product_type_marker))
    lines (in_native_target st).
Proof.
  revert st. induction lines as [|l rest IH]; intros st; [done|].
  cbn [fold_left]. destruct (IH (inserter_step st l)) as [-> ->].
  by rewrite inserter_step_spec.
Qed.

Lemma since_last_snoc (hit : string → bool) (pre : list string)
    (x : string) :
  since_last hit (pre ++ [x]) =
  if hit x then [] else since_last hit pre ++ [x].
Proof.
  induction pre as [|y pre IH].
  - cbn. by destruct (hit x).
  - cbn [app since_last existsb]. rewrite existsb_app, IH. cbn [existsb].
    destruct (hit x), (hit y), (existsb hit pre); cbn; try done.
Qed.

(** After [pre] a flag is up exactly when a line of [pre] after its last
    [hit] line holds [arm]. *)
Lemma flag_since_last (arm hit : string → bool) (pre : list string) :
  fold_left (flag_next arm hit) pre false =
  existsb arm (since_last hit pre).
Proof.
  induction pre as [|x pre IH] using rev_ind; [done|].
  rewrite fold_left_app, since_last_snoc. cbn [fold_left]. rewrite IH.
  unfold flag_next, fires_on, armed_on.
  destruct (hit x); [by destruct (arm x), (existsb arm _)|].
  rewrite existsb_app. cbn [existsb].
  by destruct (arm x), (existsb arm _).
Qed.

(** X7: the first pass, for any document.  Read after the lines [pre], a
    line is copied to the output and followed by the three build-file
    lines when it holds the build-file marker, by the three reference
    lines when it holds [files = (] and it, or a line of [pre] after the
    last [files = (] line of [pre], holds the frameworks marker, and by
    the five lines of the dependency sub-block when the same is true of
    [productType = ] and the native target marker.  Lines read later add
    to this output and change none of it. *)
Theorem inserter_appends_after_line (pre : list string) (line : string)
    (post : list string) :
  new_lines (inserter (pre ++ [line])) =
  new_lines (inserter pre) ++ [line] ++
  (if contains build_file_marker line then build_file_text else []) ++
  (if due (contains frameworks_marker) (contains files_marker) pre line
   then reference_text else []) ++
  (if due (contains native_target_marker) (contains product_type_marker)
        pre line
   then dependency_text else []) ∧
  new_lines (inserter (pre ++ [line])) `prefix_of`
  new_lines (inserter (pre ++ line :: post)).
Proof.
  split.
  - unfold inserter. rewrite fold_left_app. cbn [fold_left].
    rewrite inserter_step_spec.
    destruct (inserter_flags pre inserter_init) as [-> ->].
    cbn [new_lines inserter_init in_frameworks_phase in_native_target].
    rewrite !flag_since_last. f_equal.
    unfold render_after, fires_on, armed_on, due.
    cbn [d_build d_frameworks d_target].
    change build_file_text with build_file_lines.
    change reference_text with frameworks_lines.
    change dependency_text with dependency_block.
    destruct (contains frameworks_marker line),
      (contains files_marker line), (contains native_target_marker line),
      (contains product_type_marker line),
      (existsb (contains frameworks_marker) _),
      (existsb (contains native_target_marker) _); reflexivity.
  - replace (pre ++ line :: post) with ((pre ++ [line]) ++ post)
      by by rewrite <- (assoc_L (++)).
    unfold inserter. rewrite (fold_left_app _ (pre ++ [line]) post).
    rewrite (inserter_fold false post). by eexists.
Qed.
